(** * Arctic Nord Dock: a shallow embedding of the dock's core

    The development follows the C sources of the dock:
    - [context_menu.c]: [format_color], [context_menu_show];
    - [color_box.c]: the colour boxes, hit testing, the last-clicked box;
    - [dock.c]: [handle_event], [set_clipboard], [handle_selection_request];
    - [main.c]: the start-up layout computation.

    C integers are modelled as [Z] with the wrap-around of their width written
    out, C [double]s as the kernel's binary64 floats, C strings as lists of
    characters (the bytes before the terminating NUL), and the requests sent
    to the X server as a log kept in the application state. *)

From Stdlib Require Import ZArith Floats Uint63 QArith Qround Ascii String.
From stdpp Require Import base list.

Local Open Scope Z_scope.

(** ** C scalars *)

Definition uint32_t (n : Z) : Z := n mod 4294967296.

Definition INT_MIN : Z := -2147483648.

(** The cast of a [uint32_t] to [int]. *)
Definition int_of_uint32 (n : Z) : Z :=
  if n <? 2147483648 then n else n - 4294967296.

Definition double := float.

(** An unsigned integer below 2^53 converts to [double] exactly. *)
Definition double_of_uint (n : Z) : double := PrimFloat.of_uint63 (Uint63.of_Z n).

(** A finite [a >= 0] is [mantissa(a) / 2^binade(a)] with a 53-bit mantissa
    ([frshiftexp] biases the exponent by 2101, the mantissa has 53 bits). *)
Definition mantissa (a : double) : int :=
  PrimFloat.normfr_mantissa (fst (PrimFloat.frshiftexp a)).

Definition binade (a : double) : int :=
  Uint63.sub 2154 (snd (PrimFloat.frshiftexp a)).

(** [round] of math.h: the nearest integer, halfway cases away from zero.
    Values of magnitude 2^52 and more (and NaN, infinities) are integers
    already and are returned as they are. *)
Definition c_round (x : double) : double :=
  let a := PrimFloat.abs x in
  if PrimFloat.ltb a 0x1p52%float then
    let d := binade a in
    let q := if Uint63.ltb 53 d then 0%uint63
             else Uint63.lsr (Uint63.add (mantissa a) (Uint63.lsl 1 (Uint63.sub d 1))) d in
    let r := PrimFloat.of_uint63 q in
    if PrimFloat.get_sign x then PrimFloat.opp r else r
  else x.

(** The integer part of [a], for [1 <= a < 2^53]; 0 below 1. *)
Definition trunc_mag (a : double) : int :=
  if PrimFloat.ltb a 1%float then 0%uint63
  else Uint63.lsr (mantissa a) (binade a).

(** The cast [(int)x]: truncation toward zero, stored in the 32 bits of an
    [int]. C leaves the conversion undefined when the value does not fit; the
    model then yields [INT_MIN], the result of the x86-64 conversion
    instruction. *)
Definition double_to_int (x : double) : Z :=
  let a := PrimFloat.abs x in
  if PrimFloat.ltb a 0x1p31%float then
    let q := Uint63.to_Z (trunc_mag a) in
    int_of_uint32 (uint32_t (if PrimFloat.ltb x 0%float then - q else q))
  else INT_MIN.

(** The cast [(uint32_t)x]; outside [0, 2^32) (undefined in C) the model
    yields 0. *)
Definition double_to_uint32 (x : double) : Z :=
  if PrimFloat.ltb x 0x1p32%float && negb (PrimFloat.ltb x 0%float)
  then Uint63.to_Z (trunc_mag x) else 0.

Definition fmax (x y : double) : double :=
  if PrimFloat.is_nan x then y
  else if PrimFloat.is_nan y then x
  else if PrimFloat.ltb x y then y else x.

Definition fmin (x y : double) : double :=
  if PrimFloat.is_nan x then y
  else if PrimFloat.is_nan y then x
  else if PrimFloat.ltb y x then y else x.

(** ** C strings and printf conversions *)

Definition cstring := list ascii.

Definition lit (s : string) : cstring := list_ascii_of_string s.

Definition NUL : ascii := Ascii.zero.

Definition digit_char (d : Z) : ascii := ascii_of_N (Z.to_N (48 + d)).

Definition hex_char (upper : bool) (d : Z) : ascii :=
  if d <? 10 then digit_char d
  else ascii_of_N (Z.to_N ((if upper then 65 else 97) + (d - 10))).

Fixpoint utoa_aux (fuel : nat) (n : Z) (acc : cstring) : cstring :=
  match fuel with
  | O => acc
  | S fuel' =>
      let acc' := digit_char (n mod 10) :: acc in
      if n <? 10 then acc' else utoa_aux fuel' (n / 10) acc'
  end.

(** [%u] of an [unsigned int] (at most ten digits). *)
Definition utoa (n : Z) : cstring := utoa_aux 10 n [].

(** [%d] of an [int]. *)
Definition itoa (n : Z) : cstring :=
  if n <? 0 then "-"%char :: utoa (- n) else utoa n.

Fixpoint xtoa_aux (upper : bool) (fuel : nat) (n : Z) (acc : cstring) : cstring :=
  match fuel with
  | O => acc
  | S fuel' =>
      let acc' := hex_char upper (n mod 16) :: acc in
      if n <? 16 then acc' else xtoa_aux upper fuel' (n / 16) acc'
  end.

Definition zero_pad (width : nat) (s : cstring) : cstring :=
  replicate (width - length s) "0"%char ++ s.

(** [%02X] (upper) and [%02x] of an [unsigned int]. *)
Definition fmt_02x (upper : bool) (n : Z) : cstring :=
  zero_pad 2 (xtoa_aux upper 8 n []).

(** The number of hundredths nearest to a finite [a >= 0], exact ties to the
    even neighbour: printf converts the exact binary value and rounds in the
    current (to nearest) mode. *)
Definition hundredths (a : double) : Z :=
  let m := Uint63.to_Z (mantissa a) * 100 in
  let d := 2154 - Uint63.to_Z (snd (PrimFloat.frshiftexp a)) in
  if d <=? 0 then m * 2 ^ (- d)
  else
    let den := 2 ^ d in
    let q := m / den in
    let r := m mod den in
    if (den <? 2 * r) || ((den =? 2 * r) && Z.odd q) then q + 1 else q.

(** [%.2f] of a [double]. *)
Definition fmt_2f (x : double) : cstring :=
  let sign := if PrimFloat.get_sign x then ["-"%char] else [] in
  if PrimFloat.is_nan x then sign ++ lit "nan"
  else if PrimFloat.is_infinity x then sign ++ lit "inf"
  else
    let h := hundredths (PrimFloat.abs x) in
    sign ++ utoa_aux 400 (h / 100) []
         ++ "."%char :: digit_char (h mod 100 / 10) :: digit_char (h mod 10) :: [].

(** [snprintf(buf, buf_size, ...)] when the conversions produce [out]: at
    most [buf_size - 1] characters are stored before the NUL; nothing is
    stored when [buf_size] is 0, so [buf] keeps the string it held. *)
Definition snprintf (buf : cstring) (buf_size : Z) (out : cstring) : cstring :=
  if buf_size <=? 0 then buf else take (Z.to_nat (buf_size - 1)) out.

(** ** context_menu.h: the output formats *)

Definition ColorFormat := Z.

Definition FORMAT_HTML_HEX : ColorFormat := 0.
Definition FORMAT_RAW_HEX : ColorFormat := 1.
Definition FORMAT_CSS_RGB : ColorFormat := 2.
Definition FORMAT_CSS_RGBA : ColorFormat := 3.
Definition FORMAT_FLOAT : ColorFormat := 5.
Definition FORMAT_VEC3 : ColorFormat := 6.
Definition FORMAT_VEC4 : ColorFormat := 7.
Definition FORMAT_COUNT : Z := 8.

Definition MENU_ITEM_HEIGHT : Z := 20.
Definition MENU_ITEM_PADDING : Z := 5.
Definition MENU_WIDTH : Z := 80.

(** ** context_menu.c: format_color *)

(** The [FORMAT_HSL] block before its [snprintf]: hue, saturation and
    lightness as doubles, from the normalised channels. *)
Definition hsl_of_norm (r_norm g_norm b_norm : double) : double * double * double :=
  let max := fmax r_norm (fmax g_norm b_norm) in
  let min := fmin r_norm (fmin g_norm b_norm) in
  let delta := (max - min)%float in
  let l := ((max + min) / 2)%float in
  if negb (PrimFloat.eqb delta 0%float) then
    let s := if PrimFloat.ltb l 0.5%float then (delta / (max + min))%float
             else (delta / (2 - max - min))%float in
    let h := if PrimFloat.eqb max r_norm then ((g_norm - b_norm) / delta)%float
             else if PrimFloat.eqb max g_norm then (2 + (b_norm - r_norm) / delta)%float
             else (4 + (r_norm - g_norm) / delta)%float in
    let h := (h * 60)%float in
    let h := if PrimFloat.ltb h 0%float then (h + 360)%float else h in
    (h, s, l)
  else (0%float, 0%float, l).

Definition channel_r (color : Z) : Z := Z.land (Z.shiftr color 16) 255.
Definition channel_g (color : Z) : Z := Z.land (Z.shiftr color 8) 255.
Definition channel_b (color : Z) : Z := Z.land color 255.

Definition norm (channel : Z) : double := (double_of_uint channel / 255)%float.

(** The three integers printed by the [FORMAT_HSL] case. *)
Definition hsl_ints (color : Z) : Z * Z * Z :=
  let '(h, s, l) :=
    hsl_of_norm (norm (channel_r color)) (norm (channel_g color)) (norm (channel_b color)) in
  (double_to_int (c_round h),
   double_to_int (c_round (s * 100)%float),
   double_to_int (c_round (l * 100)%float)).

(** What the conversions of [format_color] produce for a format of the
    enumeration, before [snprintf] cuts it to the buffer. *)
Definition render_color (color : Z) (format : ColorFormat) : option cstring :=
  let r := channel_r color in
  let g := channel_g color in
  let b := channel_b color in
  let r_norm := norm r in
  let g_norm := norm g in
  let b_norm := norm b in
  match format with
  | 0 => Some (lit "#" ++ fmt_02x true r ++ fmt_02x true g ++ fmt_02x true b)
  | 1 => Some (lit "0x" ++ fmt_02x false r ++ fmt_02x false g ++ fmt_02x false b)
  | 2 => Some (lit "rgb(" ++ utoa r ++ lit ", " ++ utoa g ++ lit ", " ++ utoa b ++ lit ");")
  | 3 => Some (lit "rgba(" ++ utoa r ++ lit ", " ++ utoa g ++ lit ", " ++ utoa b ++ lit ", 1);")
  | 4 =>
      let '(h, s, l) := hsl_ints color in
      Some (lit "hsl(" ++ itoa h ++ lit ", " ++ itoa s ++ lit "%, " ++ itoa l ++ lit "%);")
  | 5 => Some (fmt_2f r_norm ++ lit "f, " ++ fmt_2f g_norm ++ lit "f, " ++ fmt_2f b_norm ++ lit "f")
  | 6 => Some (lit "vec3(" ++ fmt_2f r_norm ++ lit "f, " ++ fmt_2f g_norm ++ lit "f, "
               ++ fmt_2f b_norm ++ lit "f)")
  | 7 => Some (lit "vec4(" ++ fmt_2f r_norm ++ lit "f, " ++ fmt_2f g_norm ++ lit "f, "
               ++ fmt_2f b_norm ++ lit "f, 1.00f)")
  | _ => None
  end.

(** [format_color(color, format, buf, buf_size)]: the string [buf] holds
    afterwards; [buf] is the string it held before. The [default] case stores
    a NUL at [buf[0]] whatever [buf_size] is. *)
Definition format_color (color : Z) (format : ColorFormat) (buf : cstring) (buf_size : Z)
  : cstring :=
  match render_color color format with
  | Some out => snprintf buf buf_size out
  | None => []
  end.


(** ** The textual shape of each format

    The shapes are read off the conversion strings of [format_color]; they are
    checked by a matcher that is independent of the printing functions. The
    three CSS forms end in a semicolon. *)

Inductive token :=
| TLit (l : cstring)            (* the characters of [l] *)
| TDec                          (* one or more decimal digits *)
| TInt                          (* an optional minus sign, then decimal digits *)
| THex (upper : bool) (n : nat) (* exactly [n] hexadecimal digits of one case *)
| TFix2.                        (* digits, a point, two digits *)

Definition is_digit (c : ascii) : bool :=
  let n := N_of_ascii c in (48 <=? n)%N && (n <=? 57)%N.

Definition is_hex (upper : bool) (c : ascii) : bool :=
  let n := N_of_ascii c in
  is_digit c || (if upper then (65 <=? n)%N && (n <=? 70)%N else (97 <=? n)%N && (n <=? 102)%N).

Fixpoint strip_prefix (l s : cstring) : option cstring :=
  match l, s with
  | [], _ => Some s
  | a :: l', b :: s' => if Ascii.eqb a b then strip_prefix l' s' else None
  | _ :: _, [] => None
  end.

Fixpoint leading_digits (s : cstring) : cstring :=
  match s with
  | c :: s' => if is_digit c then c :: leading_digits s' else []
  | [] => []
  end.

Definition is_nil {A} (l : list A) : bool :=
  match l with [] => true | _ => false end.

Definition starts_nondigit (s : cstring) : bool :=
  match s with
  | [] => true
  | c :: _ => negb (is_digit c)
  end.

Fixpoint matches (p : list token) (s : cstring) : bool :=
  match p with
  | [] => is_nil s
  | TLit l :: p' =>
      match strip_prefix l s with
      | Some rest => matches p' rest
      | None => false
      end
  | TDec :: p' =>
      let ds := leading_digits s in
      negb (is_nil ds) && matches p' (drop (length ds) s)
  | TInt :: p' =>
      let body := match s with
                  | sign :: s' => if Ascii.eqb sign "-"%char then s' else s
                  | [] => s
                  end in
      let ds := leading_digits body in
      negb (is_nil ds) && matches p' (drop (length ds) body)
  | THex upper n :: p' =>
      (length (take n s) =? n)%nat && forallb (is_hex upper) (take n s)
      && matches p' (drop n s)
  | TFix2 :: p' =>
      let ds := leading_digits s in
      match drop (length ds) s with
      | dot :: a :: b :: rest =>
          negb (is_nil ds) && Ascii.eqb dot "."%char && is_digit a && is_digit b
          && matches p' rest
      | _ => false
      end
  end.

Definition grammar (format : ColorFormat) : list token :=
  match format with
  | 0 => [TLit (lit "#"); THex true 6]
  | 1 => [TLit (lit "0x"); THex false 6]
  | 2 => [TLit (lit "rgb("); TDec; TLit (lit ", "); TDec; TLit (lit ", "); TDec; TLit (lit ");")]
  | 3 => [TLit (lit "rgba("); TDec; TLit (lit ", "); TDec; TLit (lit ", "); TDec;
          TLit (lit ", 1);")]
  | 4 => [TLit (lit "hsl("); TInt; TLit (lit ", "); TDec; TLit (lit "%, "); TDec;
          TLit (lit "%);")]
  | 5 => [TFix2; TLit (lit "f, "); TFix2; TLit (lit "f, "); TFix2; TLit (lit "f")]
  | 6 => [TLit (lit "vec3("); TFix2; TLit (lit "f, "); TFix2; TLit (lit "f, "); TFix2;
          TLit (lit "f)")]
  | 7 => [TLit (lit "vec4("); TFix2; TLit (lit "f, "); TFix2; TLit (lit "f, "); TFix2;
          TLit (lit "f, 1.00f)")]
  | _ => []
  end.

(** ** Finite checks, run once *)

Fixpoint Zrange_from (start : Z) (n : nat) : list Z :=
  match n with
  | O => []
  | S n' => start :: Zrange_from (start + 1) n'
  end.

(** The integers from 0 up to [n - 1]. *)
Definition Zrange (n : Z) : list Z := Zrange_from 0 (Z.to_nat n).

Definition no_nul (s : cstring) : bool :=
  forallb (fun c => negb (Ascii.eqb c NUL)) s.

(** What one channel value contributes to the eight renderings. *)
Definition channel_ok (c : Z) : bool :=
  let u := utoa c in
  let f := fmt_2f (norm c) in
  negb (is_nil u) && (length u <=? 3)%nat && forallb is_digit u
  && (length (fmt_02x true c) =? 2)%nat && forallb (is_hex true) (fmt_02x true c)
  && (length (fmt_02x false c) =? 2)%nat && forallb (is_hex false) (fmt_02x false c)
  && match f with
     | [a; dot; b; d] => is_digit a && Ascii.eqb dot "."%char && is_digit b && is_digit d
     | _ => false
     end.

(** What a saturation or lightness between 0 and 100 prints as. *)
Definition percent_ok (n : Z) : bool :=
  let u := itoa n in
  negb (is_nil u) && (length u <=? 3)%nat && forallb is_digit u.

(** [(int)y] is defined and lies between 0 and [hi]. *)
Definition int_within (hi : int) (y : double) : bool :=
  PrimFloat.ltb (PrimFloat.abs y) 0x1p31%float
  && negb (PrimFloat.ltb y 0%float)
  && Uint63.leb (trunc_mag (PrimFloat.abs y)) hi.

(** [(int)round(x)] is defined, lies between 0 and [hi], is the value of
    [round(x)] itself, and [round(x)] is within one half of [x]. *)
Definition rounds_within (hi : int) (x : double) : bool :=
  let y := c_round x in
  int_within hi y
  && PrimFloat.eqb (PrimFloat.of_uint63 (trunc_mag (PrimFloat.abs y))) y
  && PrimFloat.leb (PrimFloat.abs (x - y)) 0.5%float.

(** Saturation and lightness of the [FORMAT_HSL] block, which depend on
    the largest and the smallest channel only. *)
Definition hsl_sat_light (max min : double) : double * double :=
  let delta := (max - min)%float in
  let l := ((max + min) / 2)%float in
  if negb (PrimFloat.eqb delta 0%float) then
    ((if PrimFloat.ltb l 0.5%float then (delta / (max + min))%float
      else (delta / (2 - max - min))%float), l)
  else (0%float, l).

(** Saturation and lightness print as percentages between 0 and 100, for
    the largest channel [hi] and the smallest [lo]. *)
Definition sat_light_within (hi lo : Z) : bool :=
  (hi <? lo)
  || (let '(s, l) := hsl_sat_light (norm hi) (norm lo) in
      rounds_within 100 (s * 100)%float && rounds_within 100 (l * 100)%float).

(** The order of the normalised channels is the order of the channels. *)
Definition norm_order_ok (i j : Z) : bool :=
  negb (PrimFloat.is_nan (norm i))
  && Bool.eqb (PrimFloat.ltb (norm i) (norm j)) (i <? j).


(** [round(x)] has the integer value [n] and lies within one half of [x]. *)
Definition nearest (x : double) (n : Z) : Prop :=
  PrimFloat.eqb (double_of_uint n) (c_round x) = true
  /\ PrimFloat.leb (PrimFloat.abs (x - c_round x)) 0.5%float = true.

(** ** main.c: the start-up layout *)

Definition PADDING : Z := 5.
Definition PALETTE_LENGTH : Z := 16.

(** [DOCK_HEIGHT_MARGIN], the double nearest to 0.20. *)
Definition DOCK_HEIGHT_MARGIN : double := 0x1.999999999999ap-3%float.

Record Layout := {
  lay_rect_size : Z;
  lay_dock_width : Z;
  lay_dock_height : Z
}.

(** The three assignments of [main] to [app.rect_size], [app.dock_width]
    and [app.dock_height]; [display_height] is the [uint32_t] read from
    [DisplayHeight]. The quotient is computed in [double] and cast back. *)
Definition compute_layout (display_height : Z) : Layout :=
  let h := double_of_uint (uint32_t display_height) in
  let rect_size :=
    double_to_uint32 ((h - DOCK_HEIGHT_MARGIN * h) / double_of_uint PALETTE_LENGTH)%float in
  {| lay_rect_size := rect_size;
     lay_dock_width := uint32_t (2 * PADDING + rect_size);
     lay_dock_height := uint32_t (PALETTE_LENGTH * (rect_size + PADDING) + PADDING) |}.

(** The formula of the layout in exact rational arithmetic. *)
Definition edge_exact (screen_height : Z) : Z :=
  Qfloor ((inject_Z screen_height - (20 # 100) * inject_Z screen_height)
          / inject_Z PALETTE_LENGTH)%Q.

(** The layout of one display height against the exact formula, whose floor
    is the height divided by 20. *)
Definition layout_ok (h : Z) : bool :=
  let l := compute_layout h in
  (lay_rect_size l =? h / 20)
  && (lay_dock_width l =? 2 * PADDING + lay_rect_size l)
  && (lay_dock_height l =? PALETTE_LENGTH * (lay_rect_size l + PADDING) + PADDING).

(** ** The X server, as far as the dock talks to it *)

Definition Window := Z.
Definition Atom := Z.

Definition XA_ATOM : Atom := 4.
Definition XA_STRING : Atom := 31.
Definition X_None : Atom := 0.
Definition Button1 : Z := 1.
Definition Button3 : Z := 3.

Record XSelectionRequestEvent := {
  req_owner : Window;
  req_requestor : Window;
  req_selection : Atom;
  req_target : Atom;
  req_property : Atom;
  req_time : Z
}.

(** The [SelectionNotify] event sent back to a requestor. *)
Record XSelectionEvent := {
  notify_requestor : Window;
  notify_selection : Atom;
  notify_target : Atom;
  notify_property : Atom;
  notify_time : Z
}.

Inductive XEvent :=
| Expose (window : Window) (count : Z)
| ButtonPress (window : Window) (button : Z) (x y : Z)
| ButtonRelease (window : Window) (button : Z) (x y : Z)
| MotionNotify (window : Window) (x y : Z)
| LeaveNotify (window : Window)
| SelectionRequest (req : XSelectionRequestEvent)
| ClientMessage (window : Window) (data0 : Z)
| OtherEvent (window : Window).

(** [ev.xany.window] *)
Definition event_window (ev : XEvent) : Window :=
  match ev with
  | Expose w _ | ButtonPress w _ _ _ | ButtonRelease w _ _ _ | MotionNotify w _ _
  | LeaveNotify w | ClientMessage w _ | OtherEvent w => w
  | SelectionRequest req => req_owner req
  end.

Inductive PropertyData :=
| Bytes (text : cstring)
| Atoms (atoms : list Atom).

(** The requests the dock sends. The drawing calls of [draw_colorbox] and of
    [draw_context_menu] are kept as one entry each, with what decides the
    picture. *)
Inductive XRequest :=
| DrawColorBox (index : nat) (clicked : bool)
| DrawContextMenu (hover_item : Z) (active : ColorFormat)
| CreateMenuWindow (x y : Z)
| DestroyMenuWindow (menu_win : Window)
| SetSelectionOwner (selection : Atom) (owner : Window)
| ChangeProperty (w : Window) (property type : Atom) (format : Z) (data : PropertyData)
| SendEvent (w : Window) (notify : XSelectionEvent)
| CloseDisplay.

(** The answers of the server: atoms, the window it creates for the menu,
    the owner it reports, the screen. Owner and menu window may depend on
    everything requested so far. *)
Record XServer := {
  XInternAtom : string -> Atom;
  XGetSelectionOwner : list XRequest -> Window;
  XCreateWindow : list XRequest -> Window;
  XTranslateCoordinates : Z -> Z -> Z * Z;
  DisplayWidth : Z;
  DisplayHeight : Z
}.

(** ** color_box.h, app_context.h: the state *)

Definition CLIPBOARD_BUFFER_SIZE : Z := 64.

Record ColorBox := {
  box_x : Z;
  box_y : Z;
  box_color : Z;
  box_label : string;
  is_clicked : bool
}.

(** The globals: [app], [color_boxes], [last_clicked_box] (an index into
    [color_boxes], [None] for the null pointer), [current_format],
    [clipboard_text], [wm_delete], and the requests sent, newest first. *)
Record AppState := {
  rect_size : Z;
  dock_width : Z;
  dock_height : Z;
  app_window : Window;
  color_boxes : list ColorBox;
  last_clicked_box : option nat;
  current_format : ColorFormat;
  clipboard_text : list ascii;
  wm_delete : Atom;
  requests : list XRequest
}.

Definition with_boxes (boxes : list ColorBox) (st : AppState) : AppState :=
  {| rect_size := rect_size st; dock_width := dock_width st; dock_height := dock_height st;
     app_window := app_window st; color_boxes := boxes;
     last_clicked_box := last_clicked_box st; current_format := current_format st;
     clipboard_text := clipboard_text st; wm_delete := wm_delete st;
     requests := requests st |}.

Definition with_last_clicked (box : option nat) (st : AppState) : AppState :=
  {| rect_size := rect_size st; dock_width := dock_width st; dock_height := dock_height st;
     app_window := app_window st; color_boxes := color_boxes st;
     last_clicked_box := box; current_format := current_format st;
     clipboard_text := clipboard_text st; wm_delete := wm_delete st;
     requests := requests st |}.

Definition with_format (format : ColorFormat) (st : AppState) : AppState :=
  {| rect_size := rect_size st; dock_width := dock_width st; dock_height := dock_height st;
     app_window := app_window st; color_boxes := color_boxes st;
     last_clicked_box := last_clicked_box st; current_format := format;
     clipboard_text := clipboard_text st; wm_delete := wm_delete st;
     requests := requests st |}.

Definition with_clipboard (text : list ascii) (st : AppState) : AppState :=
  {| rect_size := rect_size st; dock_width := dock_width st; dock_height := dock_height st;
     app_window := app_window st; color_boxes := color_boxes st;
     last_clicked_box := last_clicked_box st; current_format := current_format st;
     clipboard_text := text; wm_delete := wm_delete st;
     requests := requests st |}.

Definition emit (r : XRequest) (st : AppState) : AppState :=
  {| rect_size := rect_size st; dock_width := dock_width st; dock_height := dock_height st;
     app_window := app_window st; color_boxes := color_boxes st;
     last_clicked_box := last_clicked_box st; current_format := current_format st;
     clipboard_text := clipboard_text st; wm_delete := wm_delete st;
     requests := r :: requests st |}.

(** ** C strings in buffers *)

(** The string a buffer holds: its bytes before the first NUL. *)
Fixpoint c_str (bytes : list ascii) : cstring :=
  match bytes with
  | [] => []
  | c :: rest => if Ascii.eqb c NUL then [] else c :: c_str rest
  end.

Definition strlen (bytes : list ascii) : nat := length (c_str bytes).

(** [strncpy(dest, src, n)]: the string of [src], cut or padded with NULs
    to exactly [n] bytes, over the first [n] bytes of [dest]. *)
Definition strncpy (dest src : list ascii) (n : nat) : list ascii :=
  take n (c_str src ++ replicate n NUL) ++ drop n dest.

(** ** color_box.c *)

Definition palette : list (Z * string) :=
  [ (0x2E3440, "nord0"); (0x3B4252, "nord1"); (0x434C5E, "nord2"); (0x4C566A, "nord3");
    (0xD8DEE9, "nord4"); (0xE5E9F0, "nord5"); (0xECEFF4, "nord6"); (0x8FBCBB, "nord7");
    (0x88C0D0, "nord8"); (0x81A1C1, "nord9"); (0x5E81AC, "nord10"); (0xBF616A, "nord11");
    (0xD08770, "nord12"); (0xEBCB8B, "nord13"); (0xA3BE8C, "nord14"); (0xB48EAD, "nord15") ]%string.

Definition initialize_color_boxes (st : AppState) : AppState :=
  with_boxes
    (imap (fun i entry =>
             {| box_x := PADDING;
                box_y := uint32_t (PADDING + Z.of_nat i * (rect_size st + PADDING));
                box_color := fst entry;
                box_label := snd entry;
                is_clicked := false |}) palette)
    st.

Definition is_point_inside_box (st : AppState) (x y : Z) (box : ColorBox) : bool :=
  (box_x box <=? x) && (x <=? uint32_t (box_x box + rect_size st))
  && (box_y box <=? y) && (y <=? uint32_t (box_y box + rect_size st)).

Fixpoint find_box_from (st : AppState) (x y : Z) (i : nat) (boxes : list ColorBox)
  : option nat :=
  match boxes with
  | [] => None
  | box :: rest =>
      if is_point_inside_box st x y box then Some i
      else find_box_from st x y (S i) rest
  end.

(** [find_box(x, y)]: the arguments are converted to [uint32_t]. *)
Definition find_box (st : AppState) (x y : Z) : option nat :=
  find_box_from st (uint32_t x) (uint32_t y) 0 (color_boxes st).

Definition set_clicked (clicked : bool) (box : ColorBox) : ColorBox :=
  {| box_x := box_x box; box_y := box_y box; box_color := box_color box;
     box_label := box_label box; is_clicked := clicked |}.

Definition colorbox_on_release (box : option nat) (st : AppState) : AppState :=
  match box with
  | None => st
  | Some i => with_boxes (alter (set_clicked false) i (color_boxes st)) st
  end.

Definition draw_colorbox (box : option nat) (st : AppState) : AppState :=
  match box with
  | None => st
  | Some i =>
      match color_boxes st !! i with
      | Some b => emit (DrawColorBox i (is_clicked b)) st
      | None => st
      end
  end.

Definition draw_all_boxes (st : AppState) : AppState :=
  foldl (fun s i => draw_colorbox (Some i) s) st (seq 0 (Z.to_nat PALETTE_LENGTH)).

Definition set_last_clicked_box (box : option nat) (st : AppState) : AppState :=
  with_last_clicked box st.

Definition clear_last_clicked_box (st : AppState) : AppState :=
  with_last_clicked None st.

Definition get_last_clicked_box (st : AppState) : option nat := last_clicked_box st.

Section Dock.

Variable X : XServer.

(** ** dock.c: the clipboard *)

Definition set_clipboard (text : option (list ascii)) (st : AppState) : AppState :=
  match text with
  | None => st
  | Some text =>
      let buffer :=
        <[Z.to_nat (CLIPBOARD_BUFFER_SIZE - 1) := NUL]>
          (strncpy (clipboard_text st) text (Z.to_nat (CLIPBOARD_BUFFER_SIZE - 1))) in
      let clipboard := XInternAtom X "CLIPBOARD" in
      let utf8_string := XInternAtom X "UTF8_STRING" in
      let st := emit (SetSelectionOwner clipboard (app_window st)) (with_clipboard buffer st) in
      if XGetSelectionOwner X (requests st) =? app_window st
      then emit (ChangeProperty (app_window st) utf8_string utf8_string 8
                   (Bytes (c_str (clipboard_text st)))) st
      else st
  end.

Definition copy_color_from_box (box : option nat) (st : AppState) : AppState :=
  match box with
  | None => st
  | Some i =>
      match color_boxes st !! i with
      | Some b =>
          let buffer :=
            format_color (box_color b) (current_format st) [] CLIPBOARD_BUFFER_SIZE in
          set_clipboard (Some buffer) st
      | None => st
      end
  end.

Definition handle_selection_request (req : XSelectionRequestEvent) (st : AppState)
  : AppState :=
  let notify property :=
    {| notify_requestor := req_requestor req; notify_selection := req_selection req;
       notify_target := req_target req; notify_property := property;
       notify_time := req_time req |} in
  let utf8_string := XInternAtom X "UTF8_STRING" in
  let compound_text := XInternAtom X "COMPOUND_TEXT" in
  let targets_atom := XInternAtom X "TARGETS" in
  if req_target req =? targets_atom then
    let supported_targets := [targets_atom; XA_STRING; utf8_string; compound_text] in
    emit (SendEvent (req_requestor req) (notify (req_property req)))
      (emit (ChangeProperty (req_requestor req) (req_property req) XA_ATOM 32
               (Atoms supported_targets)) st)
  else if (req_target req =? XA_STRING) || (req_target req =? utf8_string)
          || (req_target req =? compound_text) then
    emit (SendEvent (req_requestor req) (notify (req_property req)))
      (emit (ChangeProperty (req_requestor req) (req_property req) (req_target req) 8
               (Bytes (c_str (clipboard_text st)))) st)
  else
    emit (SendEvent (req_requestor req) (notify X_None)) st.

(** ** context_menu.c: the popup menu *)

(** Where [context_menu_show(x, y)] puts the menu. *)
Definition menu_position (st : AppState) (x y : Z) : Z * Z :=
  let menu_height := MENU_ITEM_HEIGHT * FORMAT_COUNT in
  let x := if DisplayWidth X <? x + MENU_WIDTH
           then DisplayWidth X - MENU_WIDTH - int_of_uint32 (dock_width st) else x in
  let limit :=
    uint32_t (dock_height st + uint32_t (DisplayHeight X - dock_height st) / 2) in
  let y := if int_of_uint32 limit <? y + menu_height
           then int_of_uint32 (uint32_t (limit - menu_height)) else y in
  (x, y).

(** One turn of the loop of [context_menu_show]: the event either leaves the
    menu open, with the row under the pointer and whether it is drawn again,
    or ends the loop with [selected_item]. *)
Inductive MenuTurn :=
| MenuOpen (hover_item : Z) (redraw : bool)
| MenuDone (selected_item : Z).

Definition context_menu_turn (menu_win : Window) (hover_item : Z) (ev : XEvent) : MenuTurn :=
  let menu_height := MENU_ITEM_HEIGHT * FORMAT_COUNT in
  if negb (event_window ev =? menu_win) then
    match ev with
    | ButtonPress _ _ _ _ => MenuDone (-1)
    | _ => MenuOpen hover_item false
    end
  else
    match ev with
    | Expose _ _ => MenuOpen hover_item true
    | MotionNotify _ _ y =>
        let new_hover := Z.quot y MENU_ITEM_HEIGHT in
        let new_hover :=
          if (new_hover <? 0) || (FORMAT_COUNT <=? new_hover) then -1 else new_hover in
        if negb (new_hover =? hover_item) then MenuOpen new_hover true
        else MenuOpen hover_item false
    | LeaveNotify _ =>
        if negb (hover_item =? -1) then MenuOpen (-1) true else MenuOpen hover_item false
    | ButtonPress _ _ _ click_y =>
        if (click_y <? 0) || (menu_height <? click_y) then MenuDone (-1)
        else MenuDone (Z.quot click_y MENU_ITEM_HEIGHT)
    | _ => MenuOpen hover_item false
    end.

(** The loop of [context_menu_show] over the events [XNextEvent] delivers:
    the value returned and the events left for the caller, or [None] while
    the loop still waits. *)
Fixpoint context_menu_loop (menu_win : Window) (hover_item : Z) (evs : list XEvent)
  : option (Z * list XEvent) :=
  match evs with
  | [] => None
  | ev :: rest =>
      match context_menu_turn menu_win hover_item ev with
      | MenuDone selected_item => Some (selected_item, rest)
      | MenuOpen hover_item _ => context_menu_loop menu_win hover_item rest
      end
  end.

Definition context_menu_show (menu_win : Window) (evs : list XEvent)
  : option (Z * list XEvent) :=
  context_menu_loop menu_win (-1) evs.

(** ** dock.c: handle_event, and the two places where the dock waits *)

(** Where the program waits in [XNextEvent]: in the loop of [main], in the
    loop of [context_menu_show] (opened from a right click on box [box]), or
    nowhere, after [exit]. *)
Inductive Control :=
| InMain
| InMenu (menu_win : Window) (box : nat) (hover_item : Z)
| Exited.

Record Dock := {
  control : Control;
  state : AppState
}.

(** [context_menu_show] up to its loop. *)
Definition context_menu_open (box : nat) (x y : Z) (st : AppState) : Dock :=
  let '(root_x, root_y) := XTranslateCoordinates X x y in
  let '(mx, my) := menu_position st root_x root_y in
  let menu_win := XCreateWindow X (requests st) in
  {| control := InMenu menu_win box (-1);
     state := emit (DrawContextMenu (-1) (current_format st)) (emit (CreateMenuWindow mx my) st) |}.

(** [handle_event] after [context_menu_show] has returned [chosen_format]. *)
Definition context_menu_chosen (box : nat) (chosen_format : Z) (st : AppState) : AppState :=
  if 0 <=? chosen_format
  then copy_color_from_box (Some box) (with_format chosen_format st)
  else st.

Definition cleanup_dock (st : AppState) : AppState := emit CloseDisplay st.

Definition handle_event (ev : XEvent) (st : AppState) : Dock :=
  let stay st := {| control := InMain; state := st |} in
  match ev with
  | Expose _ count => stay (if count =? 0 then draw_all_boxes st else st)
  | ButtonPress _ button x y =>
      if button =? Button1 then
        match find_box st x y with
        | Some i =>
            let st := copy_color_from_box (Some i) st in
            let st := with_boxes (alter (set_clicked true) i (color_boxes st)) st in
            let st := draw_colorbox (Some i) st in
            stay (set_last_clicked_box (Some i) st)
        | None => stay st
        end
      else if button =? Button3 then
        match find_box st x y with
        | Some i => context_menu_open i x y st
        | None => stay st
        end
      else stay st
  | ButtonRelease _ _ x y =>
      match find_box st x y with
      | Some i =>
          if bool_decide (get_last_clicked_box st = Some i) then
            stay (clear_last_clicked_box (draw_colorbox (Some i) (colorbox_on_release (Some i) st)))
          else stay st
      | None => stay st
      end
  | MotionNotify _ x y =>
      let box := find_box st x y in
      match get_last_clicked_box st with
      | Some last =>
          if bool_decide (Some last <> box) then
            stay (clear_last_clicked_box
                    (draw_colorbox (Some last) (colorbox_on_release (Some last) st)))
          else stay st
      | None => stay st
      end
  | SelectionRequest req => stay (handle_selection_request req st)
  | ClientMessage _ data0 =>
      if data0 =? wm_delete st then {| control := Exited; state := cleanup_dock st |}
      else stay st
  | _ => stay st
  end.

(** What the dock does with the next event, wherever it waits. *)
Definition step (d : Dock) (ev : XEvent) : Dock :=
  match control d with
  | InMain => handle_event ev (state d)
  | InMenu menu_win box hover_item =>
      match context_menu_turn menu_win hover_item ev with
      | MenuOpen hover_item redraw =>
          {| control := InMenu menu_win box hover_item;
             state := if redraw then emit (DrawContextMenu hover_item (current_format (state d))) (state d)
                    else state d |}
      | MenuDone selected_item =>
          {| control := InMain;
             state := context_menu_chosen box selected_item
                      (emit (DestroyMenuWindow menu_win) (state d)) |}
      end
  | Exited => d
  end.

Definition run (d : Dock) (evs : list XEvent) : Dock := foldl step d evs.

(** The state when [main] enters its loop: the layout from the height of
    the display, the boxes unpressed, the buffer empty, the first format
    (the window and the atom of WM_DELETE_WINDOW are the server's). *)
Definition initial_state (window : Window) : AppState :=
  let layout := compute_layout (DisplayHeight X) in
  initialize_color_boxes
    {| rect_size := lay_rect_size layout;
       dock_width := lay_dock_width layout;
       dock_height := lay_dock_height layout;
       app_window := window;
       color_boxes := [];
       last_clicked_box := None;
       current_format := FORMAT_HTML_HEX;
       clipboard_text := replicate (Z.to_nat CLIPBOARD_BUFFER_SIZE) NUL;
       wm_delete := XInternAtom X "WM_DELETE_WINDOW";
       requests := [] |}.

Definition initial_dock (window : Window) : Dock :=
  {| control := InMain; state := initial_state window |}.

(** ** Observations *)

Definition is_commit (r : XRequest) : bool :=
  match r with
  | SetSelectionOwner _ _ => true
  | _ => false
  end.

(** The clipboard commits so far: one [XSetSelectionOwner] per commit. *)
Definition commits (st : AppState) : nat :=
  length (List.filter is_commit (requests st)).




Definition supported_target (target : Atom) : bool :=
  (target =? XInternAtom X "TARGETS") || (target =? XA_STRING)
  || (target =? XInternAtom X "UTF8_STRING") || (target =? XInternAtom X "COMPOUND_TEXT").

(** The requests [handle_selection_request] adds, newest first. *)
Definition reply (req : XSelectionRequestEvent) (st : AppState) : list XRequest :=
  take (length (requests (handle_selection_request req st)) - length (requests st))
    (requests (handle_selection_request req st)).

End Dock.

(** The part of the state that tracks the pressed box. *)
Definition same_boxes (st st' : AppState) : Prop :=
  color_boxes st' = color_boxes st
  /\ last_clicked_box st' = last_clicked_box st
  /\ rect_size st' = rect_size st.


(** What a menu session may change: only the request log, by drawing. *)
Definition menu_only (st st' : AppState) : Prop :=
  same_boxes st st'
  /\ current_format st' = current_format st
  /\ clipboard_text st' = clipboard_text st
  /\ commits st' = commits st.

(** What an event that clears the pressed box does. *)
Definition cleared (i : nat) (st st' : AppState) : Prop :=
  color_boxes st' = alter (set_clicked false) i (color_boxes st)
  /\ last_clicked_box st' = None
  /\ rect_size st' = rect_size st
  /\ commits st' = commits st
  /\ current_format st' = current_format st
  /\ clipboard_text st' = clipboard_text st.

(** A server for the examples: it grants every ownership request to the
    window 7 and creates the menu as window 9, on a 1920 x 1000 screen. *)
Definition example_server : XServer :=
  {| XInternAtom := fun name => 100 + Z.of_nat (String.length name);
     XGetSelectionOwner := fun _ => 7;
     XCreateWindow := fun _ => 9;
     XTranslateCoordinates := fun x y => (x + 1860, y + 57);
     DisplayWidth := 1920;
     DisplayHeight := 1000 |}.

Definition example_dock : Dock := initial_dock example_server 7.


(** Press on the first box, then on the second, with nothing in between. *)
Definition two_presses : list XEvent :=
  [ButtonPress 7 Button1 10 10; ButtonPress 7 Button1 10 70].

(** ** What the events keep *)

(** The last-clicked box, when there is one, is a box of the panel and is
    drawn pressed. *)
Definition tracked_pressed (st : AppState) : Prop :=
  forall i, last_clicked_box st = Some i ->
            is_clicked <$> color_boxes st !! i = Some true.

(** The panel as it was laid out: the boxes apart from their pressed flags,
    the sizes, the window and the atom of WM_DELETE_WINDOW. *)
Definition same_panel (st st' : AppState) : Prop :=
  set_clicked false <$> color_boxes st' = set_clicked false <$> color_boxes st
  /\ rect_size st' = rect_size st
  /\ dock_width st' = dock_width st
  /\ dock_height st' = dock_height st
  /\ app_window st' = app_window st
  /\ wm_delete st' = wm_delete st.

(** The clipboard buffer has its 64 bytes, the last of them a NUL. *)
Definition buffer_terminated (st : AppState) : Prop :=
  length (clipboard_text st) = Z.to_nat CLIPBOARD_BUFFER_SIZE
  /\ clipboard_text st !! Z.to_nat (CLIPBOARD_BUFFER_SIZE - 1) = Some NUL.

Definition is_button_press (ev : XEvent) : bool :=
  match ev with
  | ButtonPress _ _ _ _ => true
  | _ => false
  end.

Definition is_expose (ev : XEvent) : bool :=
  match ev with
  | Expose _ _ => true
  | _ => false
  end.

(** The events on which the dock calls [set_clipboard]: in the loop of
    [main] a primary press on a box; in the loop of the menu a press in the
    menu window, with any button, between its upper and its lower border. *)
Definition copies (d : Dock) (ev : XEvent) : bool :=
  match control d, ev with
  | InMain, ButtonPress _ button x y =>
      (button =? Button1) && bool_decide (is_Some (find_box (state d) x y))
  | InMenu menu_win _ _, ButtonPress w _ _ click_y =>
      (w =? menu_win) && (0 <=? click_y) && (click_y <=? MENU_ITEM_HEIGHT * FORMAT_COUNT)
  | _, _ => false
  end.

(** While the dock waits in the menu, the box the menu was opened on is one
    of the panel and the highlighted row is none (-1) or one of the eight. *)
Definition menu_valid (d : Dock) : Prop :=
  match control d with
  | InMenu _ box hover_item =>
      is_Some (color_boxes (state d) !! box) /\ -1 <= hover_item < FORMAT_COUNT
  | _ => True
  end.

(** The buffer [set_clipboard] leaves when [copy_color_from_box] hands it
    the rendering of [color] in [format]. *)
Definition committed (color : Z) (format : ColorFormat) (st : AppState) : list ascii :=
  <[Z.to_nat (CLIPBOARD_BUFFER_SIZE - 1) := NUL]>
    (strncpy (clipboard_text st)
       (format_color color format [] CLIPBOARD_BUFFER_SIZE)
       (Z.to_nat (CLIPBOARD_BUFFER_SIZE - 1))).

(** [st'] has the given boxes, last-clicked box, format, buffer and number
    of commits, and the sizes, the window and the atom of [st]. *)
Definition changed (boxes : list ColorBox) (last : option nat) (format : ColorFormat)
    (text : list ascii) (n : nat) (st st' : AppState) : Prop :=
  color_boxes st' = boxes
  /\ last_clicked_box st' = last
  /\ current_format st' = format
  /\ clipboard_text st' = text
  /\ commits st' = n
  /\ rect_size st' = rect_size st
  /\ dock_width st' = dock_width st
  /\ dock_height st' = dock_height st
  /\ app_window st' = app_window st
  /\ wm_delete st' = wm_delete st.

(** [st'] differs from [st] by requests that are no commits, if at all. *)
Definition quiet (st st' : AppState) : Prop :=
  changed (color_boxes st) (last_clicked_box st) (current_format st)
    (clipboard_text st) (commits st) st st'.

(** The four things one event can do to the state: nothing but drawing and
    answering; a primary press on a box; the release of the last-clicked
    box; a choice in the menu opened on a box. *)
Inductive Effect (st st' : AppState) : Prop :=
| Quiet : quiet st st' -> Effect st st'
| Pressed (i : nat) (b : ColorBox) :
    color_boxes st !! i = Some b ->
    changed (alter (set_clicked true) i (color_boxes st)) (Some i) (current_format st)
      (committed (box_color b) (current_format st) st) (S (commits st)) st st' ->
    Effect st st'
| Released (i : nat) :
    last_clicked_box st = Some i ->
    changed (alter (set_clicked false) i (color_boxes st)) None (current_format st)
      (clipboard_text st) (commits st) st st' ->
    Effect st st'
| Chosen (i : nat) (b : ColorBox) (format : ColorFormat) :
    color_boxes st !! i = Some b ->
    0 <= format <= FORMAT_COUNT ->
    changed (color_boxes st) (last_clicked_box st) format
      (committed (box_color b) format st) (S (commits st)) st st' ->
    Effect st st'.

(** What holds of every state the dock started by [X] on [window] can be
    in. *)
Definition well_formed (X : XServer) (window : Window) (d : Dock) : Prop :=
  menu_valid d
  /\ tracked_pressed (state d)
  /\ same_panel (initial_state X window) (state d)
  /\ buffer_terminated (state d)
  /\ 0 <= current_format (state d) <= FORMAT_COUNT.

(** ** dock.c: where [initialize_dock] puts the window *)

(** The position and the size [initialize_dock] hands to
    [XCreateSimpleWindow], and the position it hands to [XMoveWindow] at its
    end. The differences are taken in [unsigned int]; the first call halves
    the difference and casts the half, the second casts it and halves the
    [int]. *)
Record Placement := {
  created_x : Z;
  created_y : Z;
  created_width : Z;
  created_height : Z;
  moved_x : Z;
  moved_y : Z
}.

Definition initialize_dock (X : XServer) (dock_width dock_height : Z) : Placement :=
  {| created_x := int_of_uint32 (uint32_t (DisplayWidth X - dock_width));
     created_y := int_of_uint32 (uint32_t (DisplayHeight X - dock_height) / 2);
     created_width := dock_width;
     created_height := dock_height;
     moved_x := int_of_uint32 (uint32_t (DisplayWidth X - dock_width));
     moved_y := Z.quot (int_of_uint32 (uint32_t (DisplayHeight X - dock_height))) 2 |}.

(** ** color_box.c: the rectangles of [draw_colorbox] *)

Record TextMetrics := {
  metrics_width : Z;
  metrics_height : Z
}.

(** The area cleared, the square filled with the colour, the rectangle
    filled behind the label and the origin of the label's text. *)
Record BoxPicture := {
  clear_x : Z;
  clear_y : Z;
  clear_size : Z;
  fill_x : Z;
  fill_y : Z;
  fill_size : Z;
  label_rect_x : Z;
  label_rect_y : Z;
  label_rect_width : Z;
  label_rect_height : Z;
  text_x : Z;
  text_y : Z
}.

Definition colorbox_picture (rect_size : Z) (box : ColorBox) (label_metrics : TextMetrics)
  : BoxPicture :=
  let adjusted_rect_size := if is_clicked box then uint32_t (rect_size - 5) else rect_size in
  let adjusted_x := if is_clicked box then uint32_t (box_x box + 2) else box_x box in
  let adjusted_y := if is_clicked box then uint32_t (box_y box + 2) else box_y box in
  let width := uint32_t (metrics_width label_metrics + PADDING) in
  let height := uint32_t (metrics_height label_metrics + PADDING) in
  let y := uint32_t (adjusted_y + adjusted_rect_size - height) in
  let clamp := y <? adjusted_y in
  let y := if clamp then adjusted_y else y in
  let height := if clamp then adjusted_rect_size else height in
  {| clear_x := box_x box; clear_y := box_y box; clear_size := rect_size;
     fill_x := adjusted_x; fill_y := adjusted_y; fill_size := adjusted_rect_size;
     label_rect_x := adjusted_x; label_rect_y := y;
     label_rect_width := width; label_rect_height := height;
     text_x := uint32_t (adjusted_x + 2);
     text_y := uint32_t (y + uint32_t (height + metrics_height label_metrics) / 2) |}.

(** ** Reading the renderings back *)

Definition hex_digit_value (c : ascii) : option Z :=
  let n := Z.of_N (N_of_ascii c) in
  if is_digit c then Some (n - 48)
  else if (65 <=? n) && (n <=? 70) then Some (n - 55)
  else if (97 <=? n) && (n <=? 102) then Some (n - 87)
  else None.

Fixpoint parse_hex_from (acc : Z) (s : cstring) : option Z :=
  match s with
  | [] => Some acc
  | c :: s' =>
      match hex_digit_value c with
      | Some v => parse_hex_from (acc * 16 + v) s'
      | None => None
      end
  end.

(** The number a string of hex digits of either case denotes. *)
Definition parse_hex (s : cstring) : option Z := parse_hex_from 0 s.

(** [%02X] and [%02x] of a channel are two hex digits that denote it. *)
Definition hex_pair_ok (c : Z) : bool :=
  forallb (fun upper =>
             match fmt_02x upper c with
             | [a; b] =>
                 match hex_digit_value a, hex_digit_value b with
                 | Some va, Some vb => va * 16 + vb =? c
                 | _, _ => false
                 end
             | _ => false
             end) [true; false].

Fixpoint cstring_eqb (s t : cstring) : bool :=
  match s, t with
  | [], [] => true
  | a :: s', b :: t' => Ascii.eqb a b && cstring_eqb s' t'
  | _, _ => false
  end.

(** The number of hundredths nearest to [c / 255]. *)
Definition nearest_hundredth (c : Z) : Z := (200 * c + 255) / 510.

(** A number of hundredths below ten, written with two decimals. *)
Definition fix2 (h : Z) : cstring :=
  [digit_char (h / 100); "."%char; digit_char (h / 10 mod 10); digit_char (h mod 10)].

Definition fix2_ok (c : Z) : bool :=
  cstring_eqb (fmt_2f (norm c)) (fix2 (nearest_hundredth c)).

(** The lightness percentage of a colour whose largest channel is [hi] and
    smallest [lo]: the integer nearest to [100 * (hi + lo) / 510]. *)
Definition lightness_percent (hi lo : Z) : Z := (200 * (hi + lo) + 510) / 1020.

(** The denominator of the saturation: [hi + lo] in the dark half,
    [510 - (hi + lo)] in the light half, in units of 1/255. *)
Definition saturation_span (hi lo : Z) : Z :=
  if hi + lo <? 255 then hi + lo else 510 - (hi + lo).

(** The saturation printed is an integer nearest to the exact percentage
    (either neighbour on an exact tie), the lightness is the nearest one. *)
Definition sat_light_exact (hi lo : Z) : bool :=
  (hi <? lo)
  || (let '(s, l) := hsl_sat_light (norm hi) (norm lo) in
      let si := double_to_int (c_round (s * 100)%float) in
      let li := double_to_int (c_round (l * 100)%float) in
      (li =? lightness_percent hi lo)
      && (if hi =? lo then si =? 0
          else Z.abs (2 * saturation_span hi lo * si - 200 * (hi - lo))
               <=? saturation_span hi lo)).

(** A grey has a zero delta. *)
Definition grey_ok (c : Z) : bool := PrimFloat.eqb (norm c - norm c) 0%float.

(** What [channel_ok] establishes for one channel value. *)
Record channel_facts (c : Z) : Prop := {
  cf_dec_digits : forallb is_digit (utoa c) = true;
  cf_dec_nonempty : is_nil (utoa c) = false;
  cf_dec_length : (length (utoa c) <= 3)%nat;
  cf_hex_length : forall upper, length (fmt_02x upper c) = 2%nat;
  cf_hex_digits : forall upper, forallb (is_hex upper) (fmt_02x upper c) = true;
  cf_fix2 : exists a b d, fmt_2f (norm c) = [a; "."%char; b; d]
                          /\ is_digit a = true /\ is_digit b = true /\ is_digit d = true
}.

(** * Proofs *)

(** ** The C library functions of the model on known values *)

Example c_round_half_away :
  map c_round [2.5; -2.5; 0.5; 0x1.fffffffffffffp-2; 359.5; 0x1p60]%float
  = [3; -3; 1; 0; 360; 0x1p60]%float.
Proof. vm_compute. reflexivity. Qed.

Example double_to_int_truncates :
  map double_to_int [2.75; -2.75; 360; 0x1p31; -0x1p31; 0x1.fffffffcp30]%float
  = [2; -2; 360; INT_MIN; INT_MIN; 2147483647].
Proof. vm_compute. reflexivity. Qed.

Example fmt_2f_ties_to_even :
  map fmt_2f [0.125; 0.375; 1; 0x1.999999999999ap-3; 1234.5]%float
  = map lit ["0.12"; "0.38"; "1.00"; "0.20"; "1234.50"]%string.
Proof. vm_compute. reflexivity. Qed.

Example format_color_nord8 :
  map (fun format => format_color 0x88C0D0 format [] 64) [0; 1; 2; 3; 4; 5; 6; 7]
  = map lit ["#88C0D0"; "0x88c0d0"; "rgb(136, 192, 208);"; "rgba(136, 192, 208, 1);";
             "hsl(193, 43%, 67%);"; "0.53f, 0.75f, 0.82f"; "vec3(0.53f, 0.75f, 0.82f)";
             "vec4(0.53f, 0.75f, 0.82f, 1.00f)"]%string.
Proof. vm_compute. reflexivity. Qed.


Lemma in_Zrange_from (z start : Z) (n : nat) :
  start <= z < start + Z.of_nat n -> In z (Zrange_from start n).
Proof.
  revert start. induction n as [|n IH]; intros start Hz; [lia|].
  cbn [Zrange_from]. destruct (Z.eq_dec z start) as [->|Hne].
  - now left.
  - right. apply IH. lia.
Qed.

Lemma forallb_Zrange (P : Z -> bool) (n : Z) :
  forallb P (Zrange n) = true -> forall z, 0 <= z < n -> P z = true.
Proof.
  intros H z Hz. rewrite forallb_forall in H. apply H.
  apply in_Zrange_from. lia.
Qed.

Lemma channel_ok_all : forallb channel_ok (Zrange 256) = true.
Proof. vm_compute. reflexivity. Qed.

Lemma forallb_Zrange2 (P : Z -> Z -> bool) (n m : Z) :
  forallb (fun i => forallb (fun j => P i j) (Zrange m)) (Zrange n) = true ->
  forall i j, 0 <= i < n -> 0 <= j < m -> P i j = true.
Proof.
  intros H i j Hi Hj.
  pose proof (forallb_Zrange (fun i => forallb (fun j => P i j) (Zrange m)) n H i Hi) as H1.
  exact (forallb_Zrange (fun j => P i j) m H1 j Hj).
Qed.

Lemma percent_ok_all : forallb percent_ok (Zrange 101) = true.
Proof. vm_compute. reflexivity. Qed.

(** All 65536 pairs of channel values, checked by evaluation. *)
Lemma norm_order_all :
  forallb (fun i => forallb (fun j => norm_order_ok i j) (Zrange 256)) (Zrange 256) = true.
Proof. vm_cast_no_check (eq_refl true). Qed.

Lemma sat_light_all :
  forallb (fun hi => forallb (fun lo => sat_light_within hi lo) (Zrange 256)) (Zrange 256)
  = true.
Proof. vm_cast_no_check (eq_refl true). Qed.


(** ** Facts about the conversions *)

Lemma land_255_bound (x : Z) : 0 <= Z.land x 255 < 256.
Proof.
  change 255 with (Z.ones 8). rewrite Z.land_ones by lia.
  apply Z.mod_pos_bound. lia.
Qed.

Lemma channel_r_bound color : 0 <= channel_r color < 256.
Proof. apply land_255_bound. Qed.

Lemma channel_g_bound color : 0 <= channel_g color < 256.
Proof. apply land_255_bound. Qed.

Lemma channel_b_bound color : 0 <= channel_b color < 256.
Proof. apply land_255_bound. Qed.

Lemma channel_ok_facts c : 0 <= c < 256 -> channel_facts c.
Proof.
  intros Hc. pose proof (forallb_Zrange _ _ channel_ok_all c Hc) as H.
  unfold channel_ok in H. rewrite !andb_true_iff in H.
  destruct H as [[[[[[[Hne Hlen] Hdig] Hxl] Hxd] Hll] Hld] Hf].
  split.
  - exact Hdig.
  - now apply negb_true_iff.
  - now apply Nat.leb_le.
  - intros [|]; now apply Nat.eqb_eq.
  - intros [|]; assumption.
  - destruct (fmt_2f (norm c)) as [|a [|dot [|b [|d [|? ?]]]]]; try discriminate.
    rewrite !andb_true_iff in Hf. destruct Hf as [[[Ha Hdot] Hb] Hd].
    apply Ascii.eqb_eq in Hdot. subst dot. eauto 10.
Qed.

Lemma percent_ok_facts n :
  0 <= n <= 100 ->
  forallb is_digit (itoa n) = true /\ is_nil (itoa n) = false /\ (length (itoa n) <= 3)%nat.
Proof.
  intros Hn. assert (Hr : 0 <= n < 101) by lia.
  pose proof (forallb_Zrange _ _ percent_ok_all n Hr) as H.
  unfold percent_ok in H. rewrite !andb_true_iff in H.
  destruct H as [[Hne Hlen] Hdig]. repeat split.
  - exact Hdig.
  - now apply negb_true_iff.
  - now apply Nat.leb_le.
Qed.

Lemma is_digit_digit_char d : 0 <= d < 10 -> is_digit (digit_char d) = true.
Proof.
  intros Hd.
  assert (H : d = 0 \/ d = 1 \/ d = 2 \/ d = 3 \/ d = 4 \/ d = 5 \/ d = 6 \/ d = 7
              \/ d = 8 \/ d = 9) by lia.
  destruct H as [->|[->|[->|[->|[->|[->|[->|[->|[->| ->]]]]]]]]]; reflexivity.
Qed.

Lemma utoa_aux_digits fuel n acc :
  forallb is_digit acc = true -> forallb is_digit (utoa_aux fuel n acc) = true.
Proof.
  revert n acc. induction fuel as [|fuel IH]; intros n acc Hacc; [exact Hacc|].
  cbn [utoa_aux].
  assert (Hd : forallb is_digit (digit_char (n mod 10) :: acc) = true).
  { cbn [forallb]. rewrite is_digit_digit_char by (apply Z.mod_pos_bound; lia).
    exact Hacc. }
  destruct (n <? 10); [exact Hd|]. apply IH, Hd.
Qed.

Lemma utoa_aux_nonempty fuel n acc :
  is_nil acc = false -> is_nil (utoa_aux fuel n acc) = false.
Proof.
  revert n acc. induction fuel as [|fuel IH]; intros n acc Hacc; [exact Hacc|].
  cbn [utoa_aux]. destruct (n <? 10); [reflexivity|]. now apply IH.
Qed.

Lemma utoa_aux_length fuel n acc :
  (length (utoa_aux fuel n acc) <= fuel + length acc)%nat.
Proof.
  revert n acc. induction fuel as [|fuel IH]; intros n acc; [simpl; lia|].
  cbn [utoa_aux]. destruct (n <? 10); [simpl; lia|].
  specialize (IH (n / 10) (digit_char (n mod 10) :: acc)). simpl in IH. lia.
Qed.

(** [%d] prints an optional minus sign and between one and ten digits. *)
Lemma itoa_shape n :
  exists sign ds,
    itoa n = sign ++ ds /\ (sign = [] \/ sign = ["-"%char])
    /\ forallb is_digit ds = true /\ is_nil ds = false /\ (length ds <= 10)%nat.
Proof.
  assert (H : forall m, forallb is_digit (utoa m) = true /\ is_nil (utoa m) = false
                        /\ (length (utoa m) <= 10)%nat).
  { intros m. unfold utoa. split; [now apply utoa_aux_digits|]. split.
    - change (utoa_aux 10 m [])
        with (if m <? 10 then [digit_char (m mod 10)]
              else utoa_aux 9 (m / 10) [digit_char (m mod 10)]).
      destruct (m <? 10); [reflexivity|]. now apply utoa_aux_nonempty.
    - pose proof (utoa_aux_length 10 m []). simpl in *. lia. }
  unfold itoa. destruct (n <? 0).
  - exists ["-"%char], (utoa (- n)). split; [reflexivity|]. split; [now right|]. apply H.
  - exists [], (utoa n). split; [reflexivity|]. split; [now left|]. apply H.
Qed.

Lemma double_to_int_range x : INT_MIN <= double_to_int x < 2147483648.
Proof.
  unfold double_to_int, INT_MIN. cbv zeta.
  destruct (PrimFloat.ltb _ _); [|lia].
  unfold int_of_uint32, uint32_t.
  match goal with |- context [?z mod 4294967296] =>
    pose proof (Z.mod_pos_bound z 4294967296 ltac:(lia)) as Hm;
    destruct (z mod 4294967296 <? 2147483648) eqn:E
  end.
  - apply Z.ltb_lt in E. lia.
  - apply Z.ltb_ge in E. lia.
Qed.

Lemma int_within_spec hi y :
  Uint63.to_Z hi < 2147483648 ->
  int_within hi y = true ->
  double_to_int y = Uint63.to_Z (trunc_mag (PrimFloat.abs y))
  /\ 0 <= double_to_int y <= Uint63.to_Z hi.
Proof.
  unfold int_within, double_to_int. rewrite !andb_true_iff.
  intros Hhi [[Ha Hs] Hle]. rewrite Ha.
  apply negb_true_iff in Hs. rewrite Hs.
  apply Uint63.leb_spec in Hle.
  pose proof (Uint63.to_Z_bounded (trunc_mag (PrimFloat.abs y))) as Hb.
  unfold int_of_uint32, uint32_t. rewrite Z.mod_small by lia.
  destruct (_ <? 2147483648) eqn:E; [lia|]. apply Z.ltb_ge in E. lia.
Qed.

Lemma rounds_within_spec hi x :
  Uint63.to_Z hi < 2147483648 ->
  rounds_within hi x = true ->
  0 <= double_to_int (c_round x) <= Uint63.to_Z hi
  /\ nearest x (double_to_int (c_round x)).
Proof.
  unfold rounds_within. cbv zeta. rewrite !andb_true_iff.
  intros Hhi [[Hin Heq] Hhalf].
  destruct (int_within_spec hi (c_round x) Hhi Hin) as [Hval Hrange].
  split; [exact Hrange|]. split; [|exact Hhalf].
  rewrite Hval. unfold double_of_uint. now rewrite Uint63.of_to_Z.
Qed.

Lemma norm_order i j :
  0 <= i < 256 -> 0 <= j < 256 ->
  PrimFloat.is_nan (norm i) = false /\ PrimFloat.ltb (norm i) (norm j) = (i <? j).
Proof.
  intros Hi Hj.
  pose proof (forallb_Zrange2 norm_order_ok 256 256 norm_order_all i j Hi Hj) as H.
  unfold norm_order_ok in H. apply andb_true_iff in H as [Hn Hl].
  apply negb_true_iff in Hn. apply Bool.eqb_prop in Hl. auto.
Qed.

Lemma fmax_norm i j :
  0 <= i < 256 -> 0 <= j < 256 -> fmax (norm i) (norm j) = norm (Z.max i j).
Proof.
  intros Hi Hj. unfold fmax.
  destruct (norm_order i j Hi Hj) as [Hn Hl].
  destruct (norm_order j i Hj Hi) as [Hn' _].
  rewrite Hn, Hn', Hl. destruct (i <? j) eqn:E.
  - apply Z.ltb_lt in E. now rewrite Z.max_r by lia.
  - apply Z.ltb_ge in E. now rewrite Z.max_l by lia.
Qed.

Lemma fmin_norm i j :
  0 <= i < 256 -> 0 <= j < 256 -> fmin (norm i) (norm j) = norm (Z.min i j).
Proof.
  intros Hi Hj. unfold fmin.
  destruct (norm_order i j Hi Hj) as [Hn _].
  destruct (norm_order j i Hj Hi) as [Hn' Hl].
  rewrite Hn, Hn', Hl. destruct (j <? i) eqn:E.
  - apply Z.ltb_lt in E. now rewrite Z.min_r by lia.
  - apply Z.ltb_ge in E. now rewrite Z.min_l by lia.
Qed.

Lemma hsl_of_norm_sat_light r g b :
  let '(h, s, l) := hsl_of_norm r g b in
  (s, l) = hsl_sat_light (fmax r (fmax g b)) (fmin r (fmin g b)).
Proof.
  unfold hsl_of_norm, hsl_sat_light. cbv zeta.
  destruct (negb _); reflexivity.
Qed.

(** For every colour, saturation and lightness print as integers between 0
    and 100, each the nearest to the double it comes from, and the hue as an
    [int]. *)
Lemma hsl_ints_range color :
  let '(h, s, l) :=
    hsl_of_norm (norm (channel_r color)) (norm (channel_g color)) (norm (channel_b color)) in
  let '(hi, si, li) := hsl_ints color in
  (INT_MIN <= hi < 2147483648 /\ 0 <= si <= 100 /\ 0 <= li <= 100)
  /\ hi = double_to_int (c_round h)
  /\ nearest (s * 100)%float si /\ nearest (l * 100)%float li.
Proof.
  pose proof (channel_r_bound color) as Hr.
  pose proof (channel_g_bound color) as Hg.
  pose proof (channel_b_bound color) as Hb.
  pose proof (hsl_of_norm_sat_light (norm (channel_r color)) (norm (channel_g color))
                (norm (channel_b color))) as Hsl.
  rewrite (fmax_norm (channel_g color) (channel_b color)) in Hsl by assumption.
  rewrite (fmin_norm (channel_g color) (channel_b color)) in Hsl by assumption.
  rewrite fmax_norm, fmin_norm in Hsl by lia.
  set (top := Z.max (channel_r color) (Z.max (channel_g color) (channel_b color))) in *.
  set (bot := Z.min (channel_r color) (Z.min (channel_g color) (channel_b color))) in *.
  assert (Ht : 0 <= top < 256) by (subst top; lia).
  assert (Hbt : 0 <= bot < 256) by (subst bot; lia).
  pose proof (forallb_Zrange2 sat_light_within 256 256 sat_light_all top bot Ht Hbt) as H.
  unfold sat_light_within in H.
  assert (E : (top <? bot) = false) by (apply Z.ltb_ge; subst top bot; lia).
  rewrite E in H. cbn [orb] in H.
  unfold hsl_ints.
  destruct (hsl_of_norm _ _ _) as [[h s] l].
  rewrite <- Hsl in H. apply andb_true_iff in H as [Hs Hl].
  apply rounds_within_spec in Hs, Hl; try (change (Uint63.to_Z 100) with 100; lia).
  change (Uint63.to_Z 100) with 100 in Hs, Hl.
  pose proof (double_to_int_range (c_round h)). tauto.
Qed.

Lemma hsl_ints_bounds color :
  let '(hi, si, li) := hsl_ints color in
  INT_MIN <= hi < 2147483648 /\ 0 <= si <= 100 /\ 0 <= li <= 100.
Proof.
  pose proof (hsl_ints_range color) as H.
  destruct (hsl_of_norm _ _ _) as [[h s] l].
  destruct (hsl_ints color) as [[hi si] li]. tauto.
Qed.


(** ** Facts about the matcher *)

Lemma strip_prefix_app l s : strip_prefix l (l ++ s) = Some s.
Proof.
  induction l as [|a l IH]; simpl; [reflexivity|].
  rewrite Ascii.eqb_refl. exact IH.
Qed.

Lemma matches_lit l p s : matches (TLit l :: p) (l ++ s) = matches p s.
Proof. simpl. now rewrite strip_prefix_app. Qed.

Lemma leading_digits_app ds s :
  forallb is_digit ds = true -> starts_nondigit s = true ->
  leading_digits (ds ++ s) = ds.
Proof.
  intros Hds Hs. induction ds as [|c ds IH]; simpl in *.
  - destruct s as [|c s]; [reflexivity|]. simpl in *.
    apply negb_true_iff in Hs. now rewrite Hs.
  - apply andb_true_iff in Hds as [Hc Hds]. rewrite Hc. f_equal. auto.
Qed.

Lemma matches_dec ds p s :
  forallb is_digit ds = true -> is_nil ds = false -> starts_nondigit s = true ->
  matches (TDec :: p) (ds ++ s) = matches p s.
Proof.
  intros Hds Hne Hs. cbn [matches].
  rewrite leading_digits_app by assumption.
  rewrite Hne. simpl. now rewrite drop_app_length.
Qed.

Lemma digit_not_minus c : is_digit c = true -> Ascii.eqb c "-"%char = false.
Proof.
  intros Hc. destruct (Ascii.eqb c "-"%char) eqn:E; [|reflexivity].
  apply Ascii.eqb_eq in E. subst c. discriminate.
Qed.

Lemma matches_int sign ds p s :
  sign = [] \/ sign = ["-"%char] ->
  forallb is_digit ds = true -> is_nil ds = false -> starts_nondigit s = true ->
  matches (TInt :: p) ((sign ++ ds) ++ s) = matches p s.
Proof.
  intros Hsign Hds Hne Hs.
  assert (Hdec : negb (is_nil (leading_digits (ds ++ s)))
                 && matches p (drop (length (leading_digits (ds ++ s))) (ds ++ s))
                 = matches p s).
  { rewrite leading_digits_app by assumption.
    rewrite Hne. simpl. now rewrite drop_app_length. }
  destruct Hsign as [-> | ->].
  - cbn [matches app]. destruct ds as [|c ds]; [discriminate|].
    cbn [forallb] in Hds. apply andb_true_iff in Hds as [Hc Hds].
    change ((c :: ds) ++ s) with (c :: (ds ++ s)) in *.
    cbv iota. rewrite (digit_not_minus c Hc). exact Hdec.
  - cbn [matches app]. cbv iota. rewrite Ascii.eqb_refl. exact Hdec.
Qed.

Lemma matches_hex upper n ds p s :
  length ds = n -> forallb (is_hex upper) ds = true ->
  matches (THex upper n :: p) (ds ++ s) = matches p s.
Proof.
  intros Hn Hds. cbn [matches]. subst n.
  rewrite take_app_length, drop_app_length, Hds, Nat.eqb_refl. reflexivity.
Qed.

Lemma matches_fix2 a b d p s :
  is_digit a = true -> is_digit b = true -> is_digit d = true ->
  matches (TFix2 :: p) ([a; "."%char; b; d] ++ s) = matches p s.
Proof.
  intros Ha Hb Hd.
  change ([a; "."%char; b; d] ++ s) with (a :: "."%char :: b :: d :: s).
  cbn [matches leading_digits]. rewrite Ha.
  change (is_digit "."%char) with false. cbn [length drop is_nil negb andb].
  rewrite Ascii.eqb_refl, Hb, Hd. reflexivity.
Qed.

Lemma format_cases (format : Z) :
  0 <= format < 8 ->
  format = 0 \/ format = 1 \/ format = 2 \/ format = 3 \/
  format = 4 \/ format = 5 \/ format = 6 \/ format = 7.
Proof. lia. Qed.

Lemma digit_not_nul c : is_digit c = true -> negb (Ascii.eqb c NUL) = true.
Proof.
  intros Hc. destruct (Ascii.eqb c NUL) eqn:E; [|reflexivity].
  apply Ascii.eqb_eq in E. subst c. discriminate.
Qed.

Lemma digits_no_nul s :
  forallb is_digit s = true -> forallb (fun c => negb (Ascii.eqb c NUL)) s = true.
Proof.
  rewrite !forallb_forall. intros Hs c Hc. apply digit_not_nul. auto.
Qed.

Lemma hex_no_nul upper s :
  forallb (is_hex upper) s = true -> forallb (fun c => negb (Ascii.eqb c NUL)) s = true.
Proof.
  rewrite !forallb_forall. intros Hs c Hc. specialize (Hs c Hc).
  destruct (Ascii.eqb c NUL) eqn:E; [|reflexivity].
  apply Ascii.eqb_eq in E. subst c. destruct upper; discriminate.
Qed.

Ltac lit_no_nul :=
  unfold no_nul; rewrite !forallb_app;
  repeat match goal with
    | H : forallb is_digit ?s = true |- context [forallb (fun a => negb _) ?s] =>
        rewrite (digits_no_nul s H)
    | H : forall upper, forallb (is_hex upper) (fmt_02x upper ?n) = true
      |- context [forallb (fun a => negb _) (fmt_02x ?u ?n)] =>
        rewrite (hex_no_nul u (fmt_02x u n) (H u))
    end;
  cbn [forallb];
  repeat match goal with
    | H : is_digit ?d = true |- context [negb (Ascii.eqb ?d NUL)] =>
        rewrite (digit_not_nul d H)
    end;
  reflexivity.

Ltac lit_length :=
  rewrite !length_app; cbn [length lit list_ascii_of_string]; lia.

Ltac match_step :=
  first
    [ rewrite matches_lit
    | rewrite matches_dec by (assumption || reflexivity)
    | rewrite matches_fix2 by assumption ].

(** Every rendering of a format of the enumeration has the format's shape. *)
Lemma render_color_shape color format :
  0 <= format < 8 ->
  exists out, render_color color format = Some out
              /\ matches (grammar format) out = true
              /\ (length out <= 32)%nat
              /\ no_nul out = true.
Proof.
  intros Hf.
  destruct (channel_ok_facts _ (channel_r_bound color)) as [Rd Rn Rl Rxl Rxd (ra & rb & rd & Rf & Ra & Rb & Rc)].
  destruct (channel_ok_facts _ (channel_g_bound color)) as [Gd Gn Gl Gxl Gxd (ga & gb & gd & Gf & Ga & Gb & Gc)].
  destruct (channel_ok_facts _ (channel_b_bound color)) as [Bd Bn Bl Bxl Bxd (ba & bb & bd & Bf & Ba & Bb & Bc)].
  pose proof (hsl_ints_bounds color) as Hhsl.
  destruct (format_cases _ Hf) as [->|[->|[->|[->|[->|[->|[->| ->]]]]]]];
    unfold render_color; cbv beta iota zeta.
  - eexists; split; [reflexivity|]. split; [|split].
    + unfold grammar. rewrite matches_lit.
      rewrite <- (app_nil_r (fmt_02x true (channel_b color))), !app_assoc.
      rewrite <- !app_assoc.
      rewrite (app_assoc (fmt_02x true (channel_r color))), (app_assoc (_ ++ _)).
      apply matches_hex.
      * rewrite !length_app, !Rxl, !Gxl, !Bxl. reflexivity.
      * rewrite !forallb_app, Rxd, Gxd, Bxd. reflexivity.
    + rewrite !length_app, !Rxl, !Gxl, !Bxl. change (length (lit "#")) with 1%nat. lia.
    + lit_no_nul.
  - eexists; split; [reflexivity|]. split; [|split].
    + unfold grammar. rewrite matches_lit.
      rewrite <- (app_nil_r (fmt_02x false (channel_b color))), !app_assoc.
      rewrite <- !app_assoc.
      rewrite (app_assoc (fmt_02x false (channel_r color))), (app_assoc (_ ++ _)).
      apply matches_hex.
      * rewrite !length_app, !Rxl, !Gxl, !Bxl. reflexivity.
      * rewrite !forallb_app, Rxd, Gxd, Bxd. reflexivity.
    + rewrite !length_app, !Rxl, !Gxl, !Bxl. change (length (lit "0x")) with 2%nat. lia.
    + lit_no_nul.
  - eexists; split; [reflexivity|]. split; [|split].
    + unfold grammar. repeat match_step. reflexivity.
    + lit_length.
    + lit_no_nul.
  - eexists; split; [reflexivity|]. split; [|split].
    + unfold grammar. repeat match_step. reflexivity.
    + lit_length.
    + lit_no_nul.
  - destruct (hsl_ints color) as [[h s] l]. destruct Hhsl as (Hh & Hs & Hl).
    destruct (itoa_shape h) as (sign & ds & Hitoa & Hsign & Hd1 & Hn1 & Hl1).
    destruct (percent_ok_facts s) as (Hd2 & Hn2 & Hl2); [lia|].
    destruct (percent_ok_facts l) as (Hd3 & Hn3 & Hl3); [lia|].
    rewrite Hitoa.
    eexists; split; [reflexivity|]. split; [|split].
    + unfold grammar. rewrite matches_lit.
      rewrite (matches_int sign ds) by (assumption || reflexivity).
      repeat match_step. reflexivity.
    + destruct Hsign as [-> | ->]; lit_length.
    + destruct Hsign as [-> | ->]; lit_no_nul.
  - rewrite Rf, Gf, Bf. eexists; split; [reflexivity|]. split; [|split].
    + unfold grammar. repeat match_step. reflexivity.
    + lit_length.
    + lit_no_nul.
  - rewrite Rf, Gf, Bf. eexists; split; [reflexivity|]. split; [|split].
    + unfold grammar. repeat match_step. reflexivity.
    + lit_length.
    + lit_no_nul.
  - rewrite Rf, Gf, Bf. eexists; split; [reflexivity|]. split; [|split].
    + unfold grammar. repeat match_step. reflexivity.
    + lit_length.
    + lit_no_nul.
Qed.

(** ** Buffers *)

Lemma c_str_no_nul s : no_nul (c_str s) = true.
Proof.
  induction s as [|c s IH]; simpl; [reflexivity|].
  destruct (Ascii.eqb c NUL) eqn:E; simpl; [reflexivity|].
  unfold no_nul in *. simpl. now rewrite E.
Qed.

Lemma c_str_id s : no_nul s = true -> c_str s = s.
Proof.
  unfold no_nul. induction s as [|c s IH]; simpl; [reflexivity|].
  intros H. apply andb_true_iff in H as [Hc Hs].
  apply negb_true_iff in Hc. rewrite Hc. f_equal. auto.
Qed.

Lemma c_str_app_nul s rest : c_str (s ++ NUL :: rest) = c_str s.
Proof.
  induction s as [|c s IH]; simpl; [reflexivity|].
  destruct (Ascii.eqb c NUL); [reflexivity|]. now rewrite IH.
Qed.

Lemma c_str_app_replicate s k : c_str (s ++ replicate k NUL) = c_str s.
Proof.
  induction s as [|c s IH]; simpl.
  - destruct k; reflexivity.
  - destruct (Ascii.eqb c NUL); [reflexivity|]. now rewrite IH.
Qed.

Lemma no_nul_take n s : no_nul s = true -> no_nul (take n s) = true.
Proof.
  unfold no_nul. revert n. induction s as [|c s IH]; intros [|n] H; simpl in *; auto.
  apply andb_true_iff in H as [Hc Hs]. rewrite Hc. simpl. auto.
Qed.

Lemma length_c_str s : (length (c_str s) <= length s)%nat.
Proof.
  induction s as [|c s IH]; simpl; [lia|].
  destruct (Ascii.eqb c NUL); simpl; lia.
Qed.

(** The string left by [strncpy] and the NUL stored after it. *)
Lemma c_str_strncpy dest src n :
  (n < length dest)%nat ->
  c_str (<[n := NUL]> (strncpy dest src n)) = take n (c_str src).
Proof.
  intros Hn. unfold strncpy.
  assert (Hlen : length (take n (c_str src ++ replicate n NUL)) = n).
  { rewrite length_take, length_app, length_replicate. lia. }
  rewrite insert_app_r_alt by lia. rewrite Hlen, Nat.sub_diag.
  destruct (drop n dest) as [|c rest] eqn:Hd.
  { apply (f_equal length) in Hd. rewrite length_drop in Hd. simpl in Hd. lia. }
  simpl. rewrite c_str_app_nul.
  rewrite take_app. rewrite take_replicate, c_str_app_replicate.
  apply c_str_id, no_nul_take, c_str_no_nul.
Qed.

Lemma length_strncpy dest src n :
  (n <= length dest)%nat -> length (strncpy dest src n) = length dest.
Proof.
  intros Hn. unfold strncpy.
  rewrite length_app, length_take, length_app, length_replicate, length_drop. lia.
Qed.

(** ** What the handlers leave alone *)

Section DockFacts.

Variable X : XServer.

Lemma same_boxes_refl st : same_boxes st st.
Proof. repeat split. Qed.


Lemma set_clipboard_text text st :
  clipboard_text (set_clipboard X (Some text) st)
  = <[63%nat := NUL]> (strncpy (clipboard_text st) text 63).
Proof. unfold set_clipboard. cbv zeta. destruct (_ =? _); reflexivity. Qed.

Lemma set_clipboard_commits text st :
  commits (set_clipboard X (Some text) st) = S (commits st).
Proof. unfold set_clipboard. cbv zeta. destruct (_ =? _); reflexivity. Qed.

Lemma set_clipboard_format text st :
  current_format (set_clipboard X text st) = current_format st.
Proof.
  destruct text; [|reflexivity].
  unfold set_clipboard. cbv zeta. destruct (_ =? _); reflexivity.
Qed.

Lemma set_clipboard_same text st : same_boxes st (set_clipboard X text st).
Proof.
  destruct text; [|apply same_boxes_refl].
  unfold set_clipboard. cbv zeta. destruct (_ =? _); repeat split.
Qed.

Lemma copy_color_from_box_same box st : same_boxes st (copy_color_from_box X box st).
Proof.
  unfold copy_color_from_box. destruct box as [i|]; [|apply same_boxes_refl].
  destruct (color_boxes st !! i); [apply set_clipboard_same|apply same_boxes_refl].
Qed.

Lemma copy_color_from_box_format box st :
  current_format (copy_color_from_box X box st) = current_format st.
Proof.
  unfold copy_color_from_box. destruct box as [i|]; [|reflexivity].
  destruct (color_boxes st !! i); [apply set_clipboard_format|reflexivity].
Qed.

Lemma copy_color_from_box_commits i b st :
  color_boxes st !! i = Some b ->
  commits (copy_color_from_box X (Some i) st) = S (commits st).
Proof.
  intros Hb. unfold copy_color_from_box. rewrite Hb. apply set_clipboard_commits.
Qed.

Lemma draw_colorbox_same box st : same_boxes st (draw_colorbox box st).
Proof.
  unfold draw_colorbox. destruct box as [i|]; [|apply same_boxes_refl].
  destruct (color_boxes st !! i); repeat split.
Qed.

Lemma draw_colorbox_commits box st : commits (draw_colorbox box st) = commits st.
Proof.
  unfold draw_colorbox. destruct box as [i|]; [|reflexivity].
  destruct (color_boxes st !! i); reflexivity.
Qed.


Lemma draw_all_boxes_commits st : commits (draw_all_boxes st) = commits st.
Proof.
  unfold draw_all_boxes. generalize (seq 0 (Z.to_nat PALETTE_LENGTH)).
  intros l. revert st. induction l as [|i l IH]; intros st; simpl; [reflexivity|].
  rewrite IH. apply (draw_colorbox_commits (Some i)).
Qed.


Lemma handle_selection_request_commits req st :
  commits (handle_selection_request X req st) = commits st.
Proof.
  unfold handle_selection_request. cbv zeta.
  destruct (_ =? _); [reflexivity|]. destruct (_ || _); reflexivity.
Qed.


(** ** Hit testing *)

Lemma find_box_from_Some st x y k boxes i :
  find_box_from st x y k boxes = Some i ->
  exists b, boxes !! (i - k)%nat = Some b /\ (k <= i)%nat
            /\ is_point_inside_box st x y b = true.
Proof.
  revert k. induction boxes as [|b boxes IH]; intros k H; simpl in H; [discriminate|].
  destruct (is_point_inside_box st x y b) eqn:E.
  - injection H as <-. exists b. rewrite Nat.sub_diag. auto.
  - apply IH in H as (b' & Hb' & Hk & Hin). exists b'.
    replace (i - k)%nat with (S (i - S k)) by lia. simpl. repeat split; auto; lia.
Qed.

Lemma find_box_Some st x y i :
  find_box st x y = Some i -> exists b, color_boxes st !! i = Some b.
Proof.
  unfold find_box. intros H. apply find_box_from_Some in H as (b & Hb & _ & _).
  rewrite Nat.sub_0_r in Hb. eauto.
Qed.

End DockFacts.

(** * The claims *)

(** ** Formatter *)

Lemma render_color_unknown color format :
  ~ 0 <= format < 8 -> render_color color format = None.
Proof.
  intros Hf. unfold render_color. cbv zeta.
  destruct format as [|p|p]; [lia| |reflexivity].
  destruct p as [[[p|p|]|[p|p|]|]|[[p|p|]|[p|p|]|]|]; try reflexivity; lia.
Qed.

(** With room for the whole rendering, [snprintf] stores all of it. *)
Lemma format_color_render color format buf buf_size out :
  render_color color format = Some out ->
  Z.of_nat (length out) < buf_size ->
  format_color color format buf buf_size = out.
Proof.
  intros Hout Hlen. unfold format_color, snprintf. rewrite Hout.
  destruct (buf_size <=? 0) eqn:E; [lia|].
  apply take_ge. lia.
Qed.






(** ** Layout *)

(** The exact formula: four fifths of the height, over sixteen. *)
Lemma edge_exact_div (h : Z) : edge_exact h = h / 20.
Proof.
  unfold edge_exact, Qfloor, Qdiv, Qminus, Qplus, Qmult, Qopp, Qinv, inject_Z,
    PALETTE_LENGTH.
  cbn [Qnum Qden].
  change (Z.pos (100 * 1)) with 100. change (Z.pos (1 * (100 * 1) * 16)) with 1600.
  replace ((h * 100 + - (20 * h) * 1) * 1) with (h * 80) by lia.
  replace 1600 with (80 * 20) by lia.
  rewrite <- Z.div_div by lia. now rewrite Z.div_mul by lia.
Qed.

Lemma layout_ok_all : forallb layout_ok (Zrange 65536) = true.
Proof. vm_cast_no_check (eq_refl true). Qed.

(** C9. On every display height an X screen can have (16 bits), the edge
    computed in [double] is the floor of the exact quotient, and the panel
    is [2*padding + edge] wide and [paletteLength*(edge+padding) + padding]
    high; a height of 1000 gives 50, 60 and 885. *)
Theorem layout_formula (screen_height : Z) :
  0 <= screen_height < 65536 ->
  let l := compute_layout screen_height in
  lay_rect_size l = edge_exact screen_height
  /\ lay_dock_width l = 2 * PADDING + lay_rect_size l
  /\ lay_dock_height l = PALETTE_LENGTH * (lay_rect_size l + PADDING) + PADDING
  /\ compute_layout 1000
     = {| lay_rect_size := 50; lay_dock_width := 60; lay_dock_height := 885 |}.
Proof.
  intros Hh l.
  pose proof (forallb_Zrange _ _ layout_ok_all screen_height Hh) as H.
  unfold layout_ok in H. fold l in H. rewrite !andb_true_iff in H.
  destruct H as [[H1 H2] H3].
  apply Z.eqb_eq in H1, H2, H3.
  split; [now rewrite edge_exact_div|]. split; [exact H2|]. split; [exact H3|].
  vm_compute. reflexivity.
Qed.

Lemma layout_formula_witness :
  lay_rect_size (compute_layout 1000) = edge_exact 1000
  /\ edge_exact 1000 = 50.
Proof.
  split.
  - apply (layout_formula 1000). lia.
  - reflexivity.
Defined.

(** ** Clipboard *)

Section Clipboard.

Variable X : XServer.

(** The string in the buffer after [set_clipboard]: the first 63 characters
    of the text. *)
Lemma set_clipboard_c_str (st : AppState) (text : list ascii) :
  length (clipboard_text st) = 64%nat ->
  c_str (clipboard_text (set_clipboard X (Some text) st)) = take 63 (c_str text).
Proof.
  intros Hlen. rewrite set_clipboard_text. apply c_str_strncpy. lia.
Qed.

(** C8. After [set_clipboard] the 64-byte buffer ends in a NUL and holds a
    string of at most 63 characters: the first 63 characters of the text,
    the whole text when it is that short. A longer text is cut, the commit
    is still made. A null text leaves the buffer as it was. *)
Theorem set_clipboard_bounded (st : AppState) (text : list ascii) :
  length (clipboard_text st) = Z.to_nat CLIPBOARD_BUFFER_SIZE ->
  let st' := set_clipboard X (Some text) st in
  length (clipboard_text st') = Z.to_nat CLIPBOARD_BUFFER_SIZE
  /\ clipboard_text st' !! Z.to_nat (CLIPBOARD_BUFFER_SIZE - 1) = Some NUL
  /\ Z.of_nat (strlen (clipboard_text st')) <= CLIPBOARD_BUFFER_SIZE - 1
  /\ c_str (clipboard_text st') = take 63 (c_str text)
  /\ commits st' = S (commits st)
  /\ set_clipboard X None st = st.
Proof.
  change (Z.to_nat CLIPBOARD_BUFFER_SIZE) with 64%nat.
  change (Z.to_nat (CLIPBOARD_BUFFER_SIZE - 1)) with 63%nat.
  change (CLIPBOARD_BUFFER_SIZE - 1) with 63.
  intros Hlen st'. subst st'.
  rewrite set_clipboard_text, set_clipboard_commits.
  assert (Hs : length (strncpy (clipboard_text st) text 63) = 64%nat).
  { rewrite length_strncpy; lia. }
  assert (Hc : c_str (<[63%nat := NUL]> (strncpy (clipboard_text st) text 63))
               = take 63 (c_str text)).
  { apply c_str_strncpy. lia. }
  repeat split.
  - now rewrite length_insert.
  - apply list_lookup_insert_eq. lia.
  - unfold strlen. rewrite Hc, length_take. lia.
  - exact Hc.
Qed.

(** C10. Every rendering of a 24-bit colour in one of the eight formats is
    shorter than the clipboard buffer, so [format_color] stores all of it in
    the 64-byte buffer of [copy_color_from_box] and [set_clipboard] commits
    it uncut. *)
Theorem format_color_fits_clipboard (color : Z) (format : ColorFormat) (st : AppState) :
  0 <= color < 2 ^ 24 -> 0 <= format < FORMAT_COUNT ->
  length (clipboard_text st) = Z.to_nat CLIPBOARD_BUFFER_SIZE ->
  exists out,
    render_color color format = Some out
    /\ Z.of_nat (length out) < CLIPBOARD_BUFFER_SIZE
    /\ format_color color format [] CLIPBOARD_BUFFER_SIZE = out
    /\ c_str (clipboard_text
                (set_clipboard X
                   (Some (format_color color format [] CLIPBOARD_BUFFER_SIZE)) st))
       = out.
Proof.
  intros _ Hf Hlen.
  destruct (render_color_shape color format Hf) as (out & Hout & _ & Hl & Hnn).
  exists out.
  assert (Hfc : format_color color format [] CLIPBOARD_BUFFER_SIZE = out).
  { apply format_color_render; [exact Hout|]. unfold CLIPBOARD_BUFFER_SIZE. lia. }
  split; [exact Hout|]. split; [unfold CLIPBOARD_BUFFER_SIZE; lia|].
  split; [exact Hfc|].
  rewrite Hfc.
  etransitivity; [exact (set_clipboard_c_str st out Hlen)|].
  rewrite (c_str_id _ Hnn). apply take_ge. lia.
Qed.

(** ** Selection requests *)

(** C5. A TARGETS request is answered with the same four atoms, in the same
    order, whatever the clipboard buffer holds; a request for a target that
    is not supported is answered by a notification whose property is None,
    and nothing else; every request is answered by a notification to its
    requestor, sent last. *)
Theorem selection_request_answered (req : XSelectionRequestEvent) (st : AppState) :
  let notify property :=
    {| notify_requestor := req_requestor req; notify_selection := req_selection req;
       notify_target := req_target req; notify_property := property;
       notify_time := req_time req |} in
  (req_target req = XInternAtom X "TARGETS" ->
   reply X req st
   = [ SendEvent (req_requestor req) (notify (req_property req));
       ChangeProperty (req_requestor req) (req_property req) XA_ATOM 32
         (Atoms [XInternAtom X "TARGETS"; XA_STRING; XInternAtom X "UTF8_STRING";
                 XInternAtom X "COMPOUND_TEXT"]) ]
   /\ forall st', reply X req st' = reply X req st)
  /\ (supported_target X (req_target req) = false ->
      reply X req st = [SendEvent (req_requestor req) (notify X_None)])
  /\ (exists property rest,
        requests (handle_selection_request X req st)
        = SendEvent (req_requestor req) (notify property) :: rest).
Proof.
  intros notify.
  assert (Htake : forall (pre l : list XRequest),
             take (length (pre ++ l) - length l) (pre ++ l) = pre).
  { intros pre l. rewrite length_app, Nat.add_sub. apply take_app_length. }
  split; [|split].
  - intros Ht.
    assert (Hr : forall s, reply X req s
                 = [ SendEvent (req_requestor req) (notify (req_property req));
                     ChangeProperty (req_requestor req) (req_property req) XA_ATOM 32
                       (Atoms [XInternAtom X "TARGETS"; XA_STRING;
                               XInternAtom X "UTF8_STRING";
                               XInternAtom X "COMPOUND_TEXT"]) ]).
    { intros s. unfold reply, handle_selection_request. cbv zeta.
      destruct (req_target req =? XInternAtom X "TARGETS") eqn:E;
        [|apply Z.eqb_neq in E; contradiction].
      cbn [requests emit]. apply (Htake [_; _]). }
    split; [apply Hr|]. intros st'. now rewrite !Hr.
  - unfold supported_target. rewrite !orb_false_iff. intros [[[H1 H2] H3] H4].
    unfold reply, handle_selection_request. cbv zeta.
    rewrite H1, H2, H3, H4. cbn [orb requests emit].
    apply (Htake [_]).
  - unfold handle_selection_request. cbv zeta.
    destruct (_ =? _); [cbn [requests emit]; eauto|].
    destruct (_ || _); cbn [requests emit]; eauto.
Qed.

End Clipboard.

Lemma set_clipboard_bounded_witness :
  c_str (clipboard_text
           (set_clipboard example_server (Some (replicate 70 "a"%char))
              (state example_dock)))
  = replicate 63 "a"%char.
Proof.
  pose proof (set_clipboard_bounded example_server (state example_dock)
                (replicate 70 "a"%char) eq_refl) as H.
  cbv zeta in H. destruct H as (_ & _ & _ & H & _). rewrite H. reflexivity.
Defined.

Lemma format_color_fits_clipboard_witness :
  exists out,
    render_color 0xB48EAD FORMAT_VEC4 = Some out
    /\ Z.of_nat (length out) < CLIPBOARD_BUFFER_SIZE
    /\ format_color 0xB48EAD FORMAT_VEC4 [] CLIPBOARD_BUFFER_SIZE = out
    /\ c_str (clipboard_text
                (set_clipboard example_server
                   (Some (format_color 0xB48EAD FORMAT_VEC4 [] CLIPBOARD_BUFFER_SIZE))
                   (state example_dock)))
       = out.
Proof.
  apply (format_color_fits_clipboard example_server 0xB48EAD FORMAT_VEC4 (state example_dock)).
  - lia.
  - unfold FORMAT_VEC4, FORMAT_COUNT. lia.
  - reflexivity.
Defined.

Lemma selection_request_answered_witness :
  reply example_server
    {| req_owner := 7; req_requestor := 42; req_selection := 1; req_target := 12345;
       req_property := 77; req_time := 0 |} (state example_dock)
  = [SendEvent 42
       {| notify_requestor := 42; notify_selection := 1; notify_target := 12345;
          notify_property := X_None; notify_time := 0 |}].
Proof.
  apply (selection_request_answered example_server
           {| req_owner := 7; req_requestor := 42; req_selection := 1;
              req_target := 12345; req_property := 77; req_time := 0 |}
           (state example_dock)).
  reflexivity.
Defined.

(** ** Interaction *)




Lemma find_box_from_rect st st' x y k boxes :
  rect_size st' = rect_size st ->
  find_box_from st' x y k boxes = find_box_from st x y k boxes.
Proof.
  intros Hr. revert k. induction boxes as [|b boxes IH]; intros k; [reflexivity|].
  cbn [find_box_from]. unfold is_point_inside_box. rewrite Hr.
  destruct (_ && _); [reflexivity|]. apply IH.
Qed.

Lemma find_box_from_alter st x y c i k boxes :
  find_box_from st x y k (alter (set_clicked c) i boxes) = find_box_from st x y k boxes.
Proof.
  revert i k. induction boxes as [|b boxes IH]; intros i k; [reflexivity|].
  destruct i as [|i]; cbn [alter list_alter find_box_from].
  - reflexivity.
  - destruct (is_point_inside_box st x y b); [reflexivity|]. apply IH.
Qed.

(** Hit testing looks at the geometry only, not at the pressed flags. *)
Lemma find_box_pressed st st' x y c i :
  rect_size st' = rect_size st ->
  color_boxes st' = alter (set_clicked c) i (color_boxes st) ->
  find_box st' x y = find_box st x y.
Proof.
  intros Hr Hb. unfold find_box. rewrite Hb, find_box_from_alter.
  now apply find_box_from_rect.
Qed.

Section Interaction.

Variable X : XServer.

(** A primary press on box [i]: one commit, the box pressed and tracked. *)
Lemma press_effect st w x y i :
  find_box st x y = Some i ->
  let d := handle_event X (ButtonPress w Button1 x y) st in
  control d = InMain
  /\ color_boxes (state d) = alter (set_clicked true) i (color_boxes st)
  /\ last_clicked_box (state d) = Some i
  /\ rect_size (state d) = rect_size st
  /\ commits (state d) = S (commits st)
  /\ current_format (state d) = current_format st.
Proof.
  intros Hf. destruct (find_box_Some _ _ _ _ Hf) as [b Hb].
  cbn [handle_event]. rewrite Z.eqb_refl, Hf. cbv zeta.
  destruct (copy_color_from_box_same X (Some i) st) as (Hc & Hl & Hr).
  pose proof (copy_color_from_box_commits X i b st Hb) as Hn.
  pose proof (copy_color_from_box_format X (Some i) st) as Hfm.
  set (st1 := copy_color_from_box X (Some i) st) in *.
  set (st2 := with_boxes (alter (set_clicked true) i (color_boxes st1)) st1).
  destruct (draw_colorbox_same (Some i) st2) as (Hc2 & Hl2 & Hr2).
  pose proof (draw_colorbox_commits (Some i) st2) as Hn2.
  split; [reflexivity|].
  split.
  { change (color_boxes (draw_colorbox (Some i) st2)
            = alter (set_clicked true) i (color_boxes st)).
    rewrite Hc2. subst st2. cbn [with_boxes color_boxes]. now rewrite Hc. }
  split; [reflexivity|].
  split.
  { change (rect_size (draw_colorbox (Some i) st2) = rect_size st).
    rewrite Hr2. exact Hr. }
  split.
  { change (commits (draw_colorbox (Some i) st2) = S (commits st)).
    rewrite Hn2. exact Hn. }
  change (current_format (draw_colorbox (Some i) st2) = current_format st).
  unfold draw_colorbox. destruct (color_boxes st2 !! i); exact Hfm.
Qed.

Lemma clear_effect i st :
  cleared i st
    (clear_last_clicked_box (draw_colorbox (Some i) (colorbox_on_release (Some i) st))).
Proof.
  set (st1 := colorbox_on_release (Some i) st).
  assert (H1 : color_boxes st1 = alter (set_clicked false) i (color_boxes st)) by reflexivity.
  unfold cleared, clear_last_clicked_box, draw_colorbox.
  destruct (color_boxes st1 !! i); repeat split; exact H1.
Qed.

Lemma release_effect st w button x y :
  let d := handle_event X (ButtonRelease w button x y) st in
  control d = InMain
  /\ ((exists i, find_box st x y = Some i /\ last_clicked_box st = Some i
                 /\ cleared i st (state d))
      \/ ((find_box st x y = None \/ last_clicked_box st <> find_box st x y)
          /\ state d = st)).
Proof.
  cbn [handle_event]. unfold get_last_clicked_box.
  destruct (find_box st x y) as [i|] eqn:Hf.
  - destruct (bool_decide (last_clicked_box st = Some i)) eqn:E.
    + apply bool_decide_eq_true in E. split; [reflexivity|]. left.
      exists i. repeat split; try assumption; apply clear_effect.
    + apply bool_decide_eq_false in E. split; [reflexivity|]. right. auto.
  - split; [reflexivity|]. right. auto.
Qed.








End Interaction.



Section Press.

Variable X : XServer.

(** C2, as the code has it. A primary press on a box makes exactly one
    commit and marks the box pressed. The release that follows makes no
    commit; on the same box (so also at the same point) it clears the flag;
    on no box it changes nothing, the flag stays set. *)
Theorem press_commits_release_clears (st : AppState) (w : Window) (x y : Z) (i : nat) :
  find_box st x y = Some i ->
  let pressed := state (handle_event X (ButtonPress w Button1 x y) st) in
  commits pressed = S (commits st)
  /\ is_clicked <$> color_boxes pressed !! i = Some true
  /\ last_clicked_box pressed = Some i
  /\ forall w' button x' y',
       let released := state (handle_event X (ButtonRelease w' button x' y') pressed) in
       commits released = commits pressed
       /\ (find_box st x' y' = Some i ->
           is_clicked <$> color_boxes released !! i = Some false
           /\ last_clicked_box released = None)
       /\ (find_box st x' y' = None -> released = pressed).
Proof.
  intros Hf pressed.
  destruct (find_box_Some _ _ _ _ Hf) as [b Hb].
  destruct (press_effect X st w x y i Hf) as (_ & Hboxes & Hlast & Hrect & Hcom & _).
  fold pressed in Hboxes, Hlast, Hrect, Hcom.
  assert (Hfind : forall x' y', find_box pressed x' y' = find_box st x' y').
  { intros x' y'. eapply find_box_pressed; eassumption. }
  split; [exact Hcom|]. split.
  { rewrite Hboxes, list_lookup_alter_eq, Hb. reflexivity. }
  split; [exact Hlast|].
  intros w' button x' y' released.
  destruct (release_effect X pressed w' button x' y') as (_ & Hrel).
  fold released in Hrel. rewrite !Hfind in Hrel.
  destruct Hrel as [(j & Hj & Hlj & Hc)|(Hno & Heq)].
  - destruct Hc as (Hb' & Hl' & _ & Hc' & _).
    split; [exact Hc'|]. split.
    + intros Hi. assert (j = i) by congruence. subst j. split; [|exact Hl'].
      rewrite Hb', list_lookup_alter_eq, Hboxes, list_lookup_alter_eq, Hb. reflexivity.
    + intros Hn. congruence.
  - rewrite Heq. split; [reflexivity|]. split; [|reflexivity].
    intros Hi. exfalso. destruct Hno as [Hn|Hn]; congruence.
Qed.

End Press.

Lemma press_commits_release_clears_witness :
  find_box (state example_dock) 10 10 = Some 0%nat
  /\ commits (state (handle_event example_server (ButtonPress 7 Button1 10 10)
                       (state example_dock)))
     = S (commits (state example_dock)).
Proof.
  assert (Hf : find_box (state example_dock) 10 10 = Some 0%nat)
    by (vm_compute; reflexivity).
  split; [exact Hf|].
  exact (proj1 (press_commits_release_clears example_server (state example_dock)
                  7 10 10 0 Hf)).
Defined.

(** C2 as stated fails: after a press on the first box, a release outside
    every box leaves that box pressed. *)
Lemma release_off_swatch_keeps_pressed :
  find_box (state example_dock) 0 0 = None
  /\ is_clicked <$>
       color_boxes (state (run example_server example_dock
                             [ButtonPress 7 Button1 10 10; ButtonRelease 7 Button1 0 0]))
       !! 0%nat
     = Some true.
Proof. split; vm_compute; reflexivity. Qed.

(** ** Popup menu *)

Lemma context_menu_turn_range menu_win hover ev selected_item :
  context_menu_turn menu_win hover ev = MenuDone selected_item ->
  -1 <= selected_item <= FORMAT_COUNT.
Proof.
  unfold context_menu_turn, FORMAT_COUNT, MENU_ITEM_HEIGHT. cbv zeta.
  destruct (negb (event_window ev =? menu_win)).
  - destruct ev; intros H; try discriminate. injection H as <-. lia.
  - destruct ev as [w count|w button x y|w button x y|w x y|w|req|w data0|w];
      try discriminate.
    + destruct ((y <? 0) || (20 * 8 <? y)) eqn:E; intros H; injection H as <-; [lia|].
      apply orb_false_iff in E as [E1 E2]. apply Z.ltb_ge in E1, E2.
      rewrite Z.quot_div_nonneg by lia.
      split; [pose proof (Z.div_pos y 20); lia|].
      apply Z.div_le_upper_bound; lia.
    + destruct (negb _); discriminate.
    + destruct (negb _); discriminate.
Qed.

(** The menu never returns less than -1 nor more than [FORMAT_COUNT]. *)
Lemma context_menu_show_range menu_win evs selected_item rest :
  context_menu_show menu_win evs = Some (selected_item, rest) ->
  -1 <= selected_item <= FORMAT_COUNT.
Proof.
  unfold context_menu_show. generalize (-1) at 1. revert rest.
  induction evs as [|ev evs IH]; intros rest hover H; [discriminate|].
  cbn [context_menu_loop] in H.
  destruct (context_menu_turn menu_win hover ev) as [h r|sel] eqn:E.
  - eapply IH, H.
  - injection H as <- _. eapply context_menu_turn_range, E.
Qed.

(** C3, the failing input. A press inside the menu window at the vertical
    offset [MENU_ITEM_HEIGHT * FORMAT_COUNT] = 160 (the lower border of the
    window) passes the test [click_y > menu_height] and ends the session with
    the row index 8, one past the last row; the dock then takes 8 as its
    format and commits the empty string. *)
Theorem context_menu_show_bottom_edge :
  (forall menu_win x,
      context_menu_show menu_win [ButtonPress menu_win Button1 x 160]
      = Some (FORMAT_COUNT, []))
  /\ current_format
       (state (run example_server example_dock
                 [ButtonPress 7 Button3 10 70; ButtonPress 9 Button1 5 160]))
     = FORMAT_COUNT
  /\ c_str (clipboard_text
              (state (run example_server example_dock
                        [ButtonPress 7 Button3 10 70; ButtonPress 9 Button1 5 160])))
     = [].
Proof.
  split; [|split; vm_compute; reflexivity].
  intros menu_win x. unfold context_menu_show. cbn [context_menu_loop].
  unfold context_menu_turn. cbn [event_window]. rewrite Z.eqb_refl. reflexivity.
Qed.

(** Whatever the format, the string [format_color] leaves in a 64-byte
    buffer has no NUL inside and at most 63 characters. *)
Lemma format_color_clean color format :
  no_nul (format_color color format [] CLIPBOARD_BUFFER_SIZE) = true
  /\ (length (format_color color format [] CLIPBOARD_BUFFER_SIZE) <= 63)%nat.
Proof.
  destruct (decide (0 <= format < 8)) as [Hf|Hf].
  - destruct (render_color_shape color format Hf) as (out & Hout & _ & Hl & Hnn).
    rewrite (format_color_render color format [] CLIPBOARD_BUFFER_SIZE out Hout)
      by (unfold CLIPBOARD_BUFFER_SIZE; lia).
    split; [exact Hnn|lia].
  - unfold format_color. rewrite render_color_unknown by exact Hf.
    split; [reflexivity|simpl; lia].
Qed.

Section Menu.

Variable X : XServer.

Lemma menu_only_refl st : menu_only st st.
Proof. repeat split. Qed.

(** A whole menu session, from the state [st] in which it was opened: the
    dock is back in the loop of [main], in the state [handle_event] reaches
    from some [st'] that differs from [st] by drawing requests only. *)
Lemma menu_session evs menu_win box hover st selected_item rest :
  context_menu_loop menu_win hover evs = Some (selected_item, rest) ->
  exists st',
    menu_only st st'
    /\ run X {| control := InMenu menu_win box hover; state := st |} evs
       = run X {| control := InMain;
                  state := context_menu_chosen X box selected_item
                             (emit (DestroyMenuWindow menu_win) st') |} rest.
Proof.
  revert hover st. induction evs as [|ev evs IH]; intros hover st H; [discriminate|].
  cbn [context_menu_loop] in H. cbn [run foldl].
  unfold step at 2. cbn [control state].
  destruct (context_menu_turn menu_win hover ev) as [h redraw|sel].
  - destruct (IH h (if redraw then emit (DrawContextMenu h (current_format st)) st else st) H)
      as (st' & Hst' & Hrun).
    exists st'. split; [|exact Hrun].
    destruct redraw; [|exact Hst'].
    destruct Hst' as ((Hb & Hl & Hr) & Hf & Hc & Hn). repeat split; assumption.
  - injection H as -> ->. exists st. split; [apply menu_only_refl|reflexivity].
Qed.

(** C4. A secondary press on a box opens the menu. When the session returns
    a non-negative selection, the current format becomes that selection and
    exactly one commit is made, of the box's colour in the new format; when
    it returns a negative value (-1), the format, the buffer and the number
    of commits are as before. *)
Theorem menu_selection_commits
    (st : AppState) (w : Window) (x y : Z) (i : nat) (b : ColorBox)
    (evs : list XEvent) (selected_item : Z) :
  find_box st x y = Some i ->
  color_boxes st !! i = Some b ->
  length (clipboard_text st) = Z.to_nat CLIPBOARD_BUFFER_SIZE ->
  context_menu_show (XCreateWindow X (requests st)) evs = Some (selected_item, []) ->
  let d := run X {| control := InMain; state := st |} (ButtonPress w Button3 x y :: evs) in
  control d = InMain
  /\ (0 <= selected_item ->
      current_format (state d) = selected_item
      /\ commits (state d) = S (commits st)
      /\ c_str (clipboard_text (state d))
         = format_color (box_color b) selected_item [] CLIPBOARD_BUFFER_SIZE)
  /\ (selected_item < 0 ->
      current_format (state d) = current_format st
      /\ commits (state d) = commits st
      /\ clipboard_text (state d) = clipboard_text st).
Proof.
  intros Hf Hb Hlen Hshow d.
  assert (Hd : exists st',
             menu_only st st'
             /\ d = {| control := InMain;
                       state := context_menu_chosen X i selected_item
                                  (emit (DestroyMenuWindow (XCreateWindow X (requests st)))
                                     st') |}).
  { subst d. cbn [run foldl]. unfold step at 2. cbn [control state handle_event].
    change (Button3 =? Button1) with false. rewrite Z.eqb_refl, Hf. cbv iota.
    unfold context_menu_open.
    destruct (XTranslateCoordinates X x y) as [rx ry].
    destruct (menu_position X st rx ry) as [mx my].
    set (opened := emit (DrawContextMenu (-1) (current_format st))
                     (emit (CreateMenuWindow mx my) st)).
    destruct (menu_session evs (XCreateWindow X (requests st)) i (-1) opened
                selected_item [] Hshow) as (st' & Hst' & Hrun).
    exists st'. split; [exact Hst'|]. exact Hrun. }
  destruct Hd as (st' & Hst' & ->). cbn [control state].
  destruct Hst' as ((Hboxes & _ & _) & Hfm & Hclip & Hcom).
  set (closed := emit (DestroyMenuWindow (XCreateWindow X (requests st))) st').
  split; [reflexivity|]. unfold context_menu_chosen. split.
  - intros Hsel. apply Z.leb_le in Hsel. rewrite Hsel.
    set (st2 := with_format selected_item closed).
    assert (Hb2 : color_boxes st2 !! i = Some b).
    { change (color_boxes st2) with (color_boxes st'). now rewrite Hboxes. }
    split; [|split].
    + rewrite copy_color_from_box_format. reflexivity.
    + rewrite (copy_color_from_box_commits X i b st2 Hb2).
      change (commits st2) with (commits st'). now rewrite Hcom.
    + unfold copy_color_from_box. rewrite Hb2.
      change (current_format st2) with selected_item.
      rewrite set_clipboard_text.
      destruct (format_color_clean (box_color b) selected_item) as [Hnn Hl].
      rewrite c_str_strncpy.
      * rewrite (c_str_id _ Hnn). apply take_ge. exact Hl.
      * change (clipboard_text st2) with (clipboard_text st').
        rewrite Hclip, Hlen. unfold CLIPBOARD_BUFFER_SIZE. simpl. lia.
  - intros Hsel. assert (E : (0 <=? selected_item) = false) by (apply Z.leb_gt; lia).
    rewrite E. repeat split; assumption.
Qed.

End Menu.

Lemma menu_selection_commits_witness :
  let d := run example_server example_dock
             [ButtonPress 7 Button3 10 70; MotionNotify 9 5 45; ButtonPress 9 Button1 5 45] in
  current_format (state d) = FORMAT_CSS_RGB
  /\ commits (state d) = 1%nat
  /\ c_str (clipboard_text (state d)) = lit "rgb(59, 66, 82);".
Proof.
  assert (Hf : find_box (state example_dock) 10 70 = Some 1%nat)
    by (vm_compute; reflexivity).
  assert (Hlen : length (clipboard_text (state example_dock))
                 = Z.to_nat CLIPBOARD_BUFFER_SIZE) by (vm_compute; reflexivity).
  pose proof (menu_selection_commits example_server (state example_dock) 7 10 70 1
                {| box_x := 5; box_y := 60; box_color := 0x3B4252; box_label := "nord1";
                   is_clicked := false |}
                [MotionNotify 9 5 45; ButtonPress 9 Button1 5 45] 2
                Hf eq_refl Hlen eq_refl) as H.
  cbv zeta in H. destruct H as (_ & H & _).
  destruct (H ltac:(lia)) as (H1 & H2 & H3).
  cbv zeta. split; [exact H1|]. split; [exact H2|].
  etransitivity; [exact H3|]. vm_compute. reflexivity.
Defined.

(** * Further properties of the code *)

(** ** format_color: what the strings say *)

Lemma hex_pair_all : forallb hex_pair_ok (Zrange 256) = true.
Proof. vm_compute. reflexivity. Qed.

Lemma fix2_all : forallb fix2_ok (Zrange 256) = true.
Proof. vm_compute. reflexivity. Qed.

Lemma grey_all : forallb grey_ok (Zrange 256) = true.
Proof. vm_compute. reflexivity. Qed.

(** All 65536 pairs of a largest and a smallest channel, by evaluation. *)
Lemma sat_light_exact_all :
  forallb (fun hi => forallb (fun lo => sat_light_exact hi lo) (Zrange 256)) (Zrange 256)
  = true.
Proof. vm_cast_no_check (eq_refl true). Qed.

Lemma cstring_eqb_eq s t : cstring_eqb s t = true -> s = t.
Proof.
  revert t. induction s as [|a s IH]; intros [|b t] H; try discriminate; [reflexivity|].
  cbn [cstring_eqb] in H. apply andb_true_iff in H as [Hab Hst].
  apply Ascii.eqb_eq in Hab. subst b. f_equal. auto.
Qed.

Lemma parse_hex_from_app acc s t :
  parse_hex_from acc (s ++ t)
  = match parse_hex_from acc s with
    | Some acc' => parse_hex_from acc' t
    | None => None
    end.
Proof.
  revert acc. induction s as [|c s IH]; intros acc; [reflexivity|].
  cbn [app parse_hex_from]. destruct (hex_digit_value c); [apply IH|reflexivity].
Qed.

Lemma parse_hex_pair upper acc c :
  0 <= c < 256 -> parse_hex_from acc (fmt_02x upper c) = Some (acc * 256 + c).
Proof.
  intros Hc. pose proof (forallb_Zrange _ _ hex_pair_all c Hc) as H.
  unfold hex_pair_ok in H. cbn [forallb] in H.
  rewrite !andb_true_iff in H. destruct H as (Hu & Hl & _).
  assert (Hone : match fmt_02x upper c with
                 | [a; b] =>
                     match hex_digit_value a, hex_digit_value b with
                     | Some va, Some vb => va * 16 + vb =? c
                     | _, _ => false
                     end
                 | _ => false
                 end = true) by (destruct upper; assumption).
  destruct (fmt_02x upper c) as [|a [|b [|? ?]]]; try discriminate.
  cbn [parse_hex_from].
  destruct (hex_digit_value a) as [va|]; [|discriminate].
  destruct (hex_digit_value b) as [vb|]; [|discriminate].
  apply Z.eqb_eq in Hone. f_equal. lia.
Qed.

(** A 24-bit colour is its three channels. *)
Lemma color_channels color :
  0 <= color < 2 ^ 24 ->
  color = (channel_r color * 256 + channel_g color) * 256 + channel_b color.
Proof.
  intros Hc. unfold channel_r, channel_g, channel_b.
  change 255 with (Z.ones 8). rewrite !Z.land_ones, !Z.shiftr_div_pow2 by lia.
  change (2 ^ 16) with 65536. change (2 ^ 8) with 256. change (2 ^ 24) with 16777216 in Hc.
  pose proof (Z.div_mod color 256 ltac:(lia)).
  pose proof (Z.mod_pos_bound color 256 ltac:(lia)).
  pose proof (Z.div_mod (color / 256) 256 ltac:(lia)).
  pose proof (Z.mod_pos_bound (color / 256) 256 ltac:(lia)).
  assert (E : color / 65536 = color / 256 / 256) by (rewrite Z.div_div by lia; reflexivity).
  rewrite E.
  assert (0 <= color / 256 / 256 < 256).
  { split; [apply Z.div_pos; [apply Z.div_pos|]; lia|].
    apply Z.div_lt_upper_bound; [lia|]. apply Z.div_lt_upper_bound; lia. }
  rewrite (Z.mod_small (color / 256 / 256)) by lia. lia.
Qed.

(** X1. Both hex formats can be read back: the six digits after the prefix
    denote the colour, so two different 24-bit colours never print alike. *)
Theorem hex_formats_round_trip (color : Z) :
  0 <= color < 2 ^ 24 ->
  (exists ds, format_color color FORMAT_HTML_HEX [] CLIPBOARD_BUFFER_SIZE = lit "#" ++ ds
              /\ parse_hex ds = Some color)
  /\ (exists ds, format_color color FORMAT_RAW_HEX [] CLIPBOARD_BUFFER_SIZE = lit "0x" ++ ds
                 /\ parse_hex ds = Some color).
Proof.
  intros Hc.
  pose proof (channel_r_bound color) as Hr.
  pose proof (channel_g_bound color) as Hg.
  pose proof (channel_b_bound color) as Hb.
  assert (Hparse : forall upper,
             parse_hex (fmt_02x upper (channel_r color) ++ fmt_02x upper (channel_g color)
                        ++ fmt_02x upper (channel_b color)) = Some color).
  { intros upper. unfold parse_hex.
    rewrite parse_hex_from_app, (parse_hex_pair upper 0) by exact Hr.
    rewrite parse_hex_from_app, (parse_hex_pair upper) by exact Hg.
    rewrite (parse_hex_pair upper) by exact Hb.
    f_equal. rewrite (color_channels color Hc) at 4. lia. }
  assert (Hlen : forall upper pre,
             (length pre <= 2)%nat ->
             take 63 (pre ++ fmt_02x upper (channel_r color)
                      ++ fmt_02x upper (channel_g color)
                      ++ fmt_02x upper (channel_b color))
             = pre ++ fmt_02x upper (channel_r color) ++ fmt_02x upper (channel_g color)
               ++ fmt_02x upper (channel_b color)).
  { intros upper pre Hpre. apply take_ge. rewrite !length_app.
    destruct (channel_ok_facts _ Hr) as [_ _ _ Rx _ _].
    destruct (channel_ok_facts _ Hg) as [_ _ _ Gx _ _].
    destruct (channel_ok_facts _ Hb) as [_ _ _ Bx _ _].
    rewrite Rx, Gx, Bx. lia. }
  split.
  - eexists. split; [|apply (Hparse true)].
    unfold format_color, render_color, snprintf. cbv beta iota zeta.
    apply (Hlen true (lit "#")). simpl. lia.
  - eexists. split; [|apply (Hparse false)].
    unfold format_color, render_color, snprintf. cbv beta iota zeta.
    apply (Hlen false (lit "0x")). simpl. lia.
Qed.

Lemma hex_formats_round_trip_witness :
  exists ds, format_color 0x5E81AC FORMAT_HTML_HEX [] CLIPBOARD_BUFFER_SIZE = lit "#" ++ ds
             /\ parse_hex ds = Some 0x5E81AC.
Proof.
  exact (proj1 (hex_formats_round_trip 0x5E81AC ltac:(lia))).
Defined.

Lemma fix2_norm c : 0 <= c < 256 -> fmt_2f (norm c) = fix2 (nearest_hundredth c).
Proof.
  intros Hc. apply cstring_eqb_eq.
  exact (forallb_Zrange _ _ fix2_all c Hc).
Qed.

Lemma nearest_hundredth_near c :
  0 <= c < 256 ->
  0 <= nearest_hundredth c <= 100
  /\ 2 * Z.abs (255 * nearest_hundredth c - 100 * c) < 255.
Proof.
  intros Hc. unfold nearest_hundredth.
  pose proof (Z.div_mod (200 * c + 255) 510 ltac:(lia)) as Hd.
  pose proof (Z.mod_pos_bound (200 * c + 255) 510 ltac:(lia)) as Hm.
  assert (Hodd : (200 * c + 255) mod 510 <> 0).
  { intros E. rewrite E in Hd.
    assert (H2 : (200 * c + 255) mod 2 = 1).
    { replace (200 * c + 255) with (1 + (100 * c + 127) * 2) by lia.
      now rewrite Z.mod_add by lia. }
    rewrite Hd in H2.
    replace (510 * ((200 * c + 255) / 510) + 0)
      with (0 + (255 * ((200 * c + 255) / 510)) * 2) in H2 by lia.
    rewrite Z.mod_add in H2 by lia. discriminate. }
  revert Hd Hm Hodd.
  generalize ((200 * c + 255) / 510) ((200 * c + 255) mod 510). intros q m Hd Hm Hodd.
  lia.
Qed.

(** X2. The three float formats print each channel as the number with two
    decimals nearest to channel / 255 (no channel lies halfway between two
    of them), whatever the rounding of the doubles in between. *)
Theorem float_formats_nearest (color : Z) :
  0 <= color < 2 ^ 24 ->
  let r := fix2 (nearest_hundredth (channel_r color)) in
  let g := fix2 (nearest_hundredth (channel_g color)) in
  let b := fix2 (nearest_hundredth (channel_b color)) in
  format_color color FORMAT_FLOAT [] CLIPBOARD_BUFFER_SIZE
  = r ++ lit "f, " ++ g ++ lit "f, " ++ b ++ lit "f"
  /\ format_color color FORMAT_VEC3 [] CLIPBOARD_BUFFER_SIZE
     = lit "vec3(" ++ r ++ lit "f, " ++ g ++ lit "f, " ++ b ++ lit "f)"
  /\ format_color color FORMAT_VEC4 [] CLIPBOARD_BUFFER_SIZE
     = lit "vec4(" ++ r ++ lit "f, " ++ g ++ lit "f, " ++ b ++ lit "f, 1.00f)"
  /\ (forall c, 0 <= c < 256 ->
        0 <= nearest_hundredth c <= 100
        /\ 2 * Z.abs (255 * nearest_hundredth c - 100 * c) < 255).
Proof.
  intros _ r g b.
  pose proof (fix2_norm _ (channel_r_bound color)) as Hr.
  pose proof (fix2_norm _ (channel_g_bound color)) as Hg.
  pose proof (fix2_norm _ (channel_b_bound color)) as Hb.
  fold r in Hr. fold g in Hg. fold b in Hb.
  split; [|split; [|split]].
  - unfold format_color, render_color, snprintf. cbv beta iota zeta.
    rewrite Hr, Hg, Hb. apply take_ge. subst r g b. unfold fix2.
    change (Z.to_nat (CLIPBOARD_BUFFER_SIZE - 1)) with 63%nat. lit_length.
  - unfold format_color, render_color, snprintf. cbv beta iota zeta.
    rewrite Hr, Hg, Hb. apply take_ge. subst r g b. unfold fix2.
    change (Z.to_nat (CLIPBOARD_BUFFER_SIZE - 1)) with 63%nat. lit_length.
  - unfold format_color, render_color, snprintf. cbv beta iota zeta.
    rewrite Hr, Hg, Hb. apply take_ge. subst r g b. unfold fix2.
    change (Z.to_nat (CLIPBOARD_BUFFER_SIZE - 1)) with 63%nat. lit_length.
  - apply nearest_hundredth_near.
Qed.

Lemma float_formats_nearest_witness :
  format_color 0x88C0D0 FORMAT_FLOAT [] CLIPBOARD_BUFFER_SIZE
  = fix2 53 ++ lit "f, " ++ fix2 75 ++ lit "f, " ++ fix2 82 ++ lit "f".
Proof.
  exact (proj1 (float_formats_nearest 0x88C0D0 ltac:(lia))).
Defined.

Lemma grey_delta c : 0 <= c < 256 -> PrimFloat.eqb (norm c - norm c) 0 = true.
Proof. intros Hc. exact (forallb_Zrange _ _ grey_all c Hc). Qed.

(** X3. For every colour, with [hi] its largest and [lo] its smallest
    channel: the lightness printed is the integer nearest to
    [100 * (hi + lo) / 510]; the saturation printed is an integer nearest to
    [100 * (hi - lo)] over [hi + lo] (dark half) or [510 - (hi + lo)] (light
    half); a grey prints hue 0 and saturation 0. *)
Theorem hsl_saturation_lightness_exact (color : Z) :
  let hi := Z.max (channel_r color) (Z.max (channel_g color) (channel_b color)) in
  let lo := Z.min (channel_r color) (Z.min (channel_g color) (channel_b color)) in
  let '(h, s, l) := hsl_ints color in
  l = lightness_percent hi lo
  /\ (hi = lo -> h = 0 /\ s = 0)
  /\ (hi <> lo ->
      Z.abs (2 * saturation_span hi lo * s - 200 * (hi - lo)) <= saturation_span hi lo).
Proof.
  intros hi lo.
  pose proof (channel_r_bound color) as Hr.
  pose proof (channel_g_bound color) as Hg.
  pose proof (channel_b_bound color) as Hb.
  assert (Hhi : 0 <= hi < 256) by (subst hi; lia).
  assert (Hlo : 0 <= lo < 256) by (subst lo; lia).
  assert (Hmax : fmax (norm (channel_r color))
                   (fmax (norm (channel_g color)) (norm (channel_b color))) = norm hi).
  { rewrite (fmax_norm (channel_g color) (channel_b color)) by assumption.
    rewrite fmax_norm by lia. reflexivity. }
  assert (Hmin : fmin (norm (channel_r color))
                   (fmin (norm (channel_g color)) (norm (channel_b color))) = norm lo).
  { rewrite (fmin_norm (channel_g color) (channel_b color)) by assumption.
    rewrite fmin_norm by lia. reflexivity. }
  pose proof (hsl_of_norm_sat_light (norm (channel_r color)) (norm (channel_g color))
                (norm (channel_b color))) as Hsl.
  rewrite Hmax, Hmin in Hsl.
  pose proof (forallb_Zrange2 sat_light_exact 256 256 sat_light_exact_all hi lo Hhi Hlo) as H.
  unfold sat_light_exact in H.
  assert (E : (hi <? lo) = false) by (apply Z.ltb_ge; subst hi lo; lia).
  rewrite E in H. cbn [orb] in H.
  assert (Hgrey : hi = lo ->
            fst (fst (hsl_of_norm (norm (channel_r color)) (norm (channel_g color))
                        (norm (channel_b color)))) = 0%float).
  { intros Heq. unfold hsl_of_norm. cbv zeta. rewrite Hmax, Hmin, Heq.
    rewrite (grey_delta lo Hlo). reflexivity. }
  unfold hsl_ints.
  destruct (hsl_of_norm _ _ _) as [[fh fs] fl].
  rewrite <- Hsl in H. apply andb_true_iff in H as [Hl Hs].
  apply Z.eqb_eq in Hl. split; [exact Hl|]. split.
  - intros Heq. apply Z.eqb_eq in Heq as Heqb. rewrite Heqb in Hs.
    apply Z.eqb_eq in Hs. split; [|exact Hs].
    cbn [fst] in Hgrey. rewrite (Hgrey Heq). vm_compute. reflexivity.
  - intros Hne. apply Z.eqb_neq in Hne. rewrite Hne in Hs.
    now apply Z.leb_le in Hs.
Qed.

(** ** The boxes on the panel *)

Lemma uint32_t_small n : 0 <= n < 4294967296 -> uint32_t n = n.
Proof. intros Hn. unfold uint32_t. now apply Z.mod_small. Qed.

Lemma uint32_t_negative n : - 4294967296 <= n < 0 -> uint32_t n = n + 4294967296.
Proof.
  intros Hn. unfold uint32_t.
  replace n with (n + 4294967296 + (-1) * 4294967296) at 1 by lia.
  rewrite Z.mod_add by lia. apply Z.mod_small. lia.
Qed.

Section Panel.

Variable X : XServer.
Variable window : Window.
Hypothesis display_height_16bit : 0 <= DisplayHeight X < 65536.

Local Abbreviation st := (initial_state X window).
Local Abbreviation edge := (DisplayHeight X / 20).

Lemma initial_layout :
  rect_size st = edge
  /\ dock_width st = 2 * PADDING + edge
  /\ dock_height st = PALETTE_LENGTH * (edge + PADDING) + PADDING.
Proof.
  pose proof (forallb_Zrange _ _ layout_ok_all _ display_height_16bit) as H.
  unfold layout_ok in H. rewrite !andb_true_iff in H. destruct H as [[H1 H2] H3].
  apply Z.eqb_eq in H1, H2, H3.
  unfold initial_state, initialize_color_boxes. cbn [with_boxes rect_size dock_width dock_height].
  rewrite H2, H3, H1. auto.
Qed.

Lemma edge_bound : 0 <= edge <= 3276.
Proof.
  split; [apply Z.div_pos; lia|].
  enough (DisplayHeight X / 20 < 3277) by lia.
  apply Z.div_lt_upper_bound; lia.
Qed.

(** The box at index [i] of the initial state. *)
Lemma initial_box i b :
  color_boxes st !! i = Some b <->
  (i < 16)%nat
  /\ exists entry, palette !! i = Some entry
     /\ b = {| box_x := PADDING;
               box_y := PADDING + Z.of_nat i * (edge + PADDING);
               box_color := fst entry; box_label := snd entry;
               is_clicked := false |}.
Proof.
  destruct initial_layout as (Hr & _ & _). pose proof edge_bound as He.
  unfold initial_state, initialize_color_boxes in *.
  cbn [with_boxes color_boxes rect_size] in *.
  rewrite list_lookup_imap. rewrite Hr.
  split.
  - intros H. destruct (palette !! i) as [entry|] eqn:Hp; [|discriminate].
    apply lookup_lt_Some in Hp as Hlt. change (length palette) with 16%nat in Hlt.
    split; [exact Hlt|]. exists entry. split; [reflexivity|].
    cbn in H. injection H as <-. f_equal.
    apply uint32_t_small. unfold PADDING. nia.
  - intros (Hlt & entry & Hp & ->). rewrite Hp. cbn. f_equal. f_equal.
    apply uint32_t_small. unfold PADDING. nia.
Qed.




(** X5. Every box of the panel lies inside the dock window with [PADDING]
    on each side: it is [PADDING] from the left edge and its right side is
    [PADDING] from the right one; the first box starts [PADDING] below the
    top, each next one [PADDING] below the one before, and the last one ends
    [PADDING] above the bottom. There are sixteen of them. *)
Theorem boxes_fill_the_dock (i : nat) (b : ColorBox) :
  color_boxes st !! i = Some b ->
  length (color_boxes st) = 16%nat
  /\ box_x b = PADDING
  /\ box_x b + rect_size st + PADDING = dock_width st
  /\ box_y b = PADDING + Z.of_nat i * (rect_size st + PADDING)
  /\ box_y b + rect_size st + PADDING <= dock_height st
  /\ (i = 15%nat -> box_y b + rect_size st + PADDING = dock_height st).
Proof.
  intros Hb. destruct initial_layout as (Hr & Hw & Hh). pose proof edge_bound as He.
  apply initial_box in Hb as (Hlt & entry & _ & ->).
  rewrite Hr, Hw, Hh. cbn [box_x box_y].
  split.
  { unfold initial_state, initialize_color_boxes.
    cbn [with_boxes color_boxes]. now rewrite length_imap. }
  unfold PADDING, PALETTE_LENGTH. repeat split; try lia; nia.
Qed.

End Panel.


Lemma boxes_fill_the_dock_witness :
  box_y {| box_x := 5; box_y := 830; box_color := 0xB48EAD; box_label := "nord15";
           is_clicked := false |}
  + rect_size (state example_dock) + PADDING
  = dock_height (state example_dock).
Proof.
  apply (boxes_fill_the_dock example_server 7 ltac:(cbn; lia) 15
           {| box_x := 5; box_y := 830; box_color := 0xB48EAD; box_label := "nord15";
              is_clicked := false |}).
  - vm_compute. reflexivity.
  - reflexivity.
Defined.

(** ** What one event does, and what every event keeps *)

Lemma fmap_alter_set_clicked c i (boxes : list ColorBox) :
  set_clicked false <$> alter (set_clicked c) i boxes = set_clicked false <$> boxes.
Proof.
  revert i. induction boxes as [|b boxes IH]; intros [|i]; simpl; try reflexivity.
  f_equal. apply IH.
Qed.

(** Hit testing does not look at the pressed flags. *)
Lemma find_box_from_flags st x y k (boxes boxes' : list ColorBox) :
  set_clicked false <$> boxes' = set_clicked false <$> boxes ->
  find_box_from st x y k boxes' = find_box_from st x y k boxes.
Proof.
  revert k boxes'.
  induction boxes as [|b boxes IH]; intros k [|b' boxes'] H; try discriminate;
    [reflexivity|].
  simpl in H. injection H as Hx Hy _ _ Hrest.
  cbn [find_box_from]. unfold is_point_inside_box. rewrite Hx, Hy.
  now rewrite (IH _ _ Hrest).
Qed.

Lemma quiet_refl st : quiet st st.
Proof. repeat split. Qed.

Lemma quiet_trans st1 st2 st3 : quiet st1 st2 -> quiet st2 st3 -> quiet st1 st3.
Proof. unfold quiet, changed. intuition congruence. Qed.

Lemma quiet_emit r st : is_commit r = false -> quiet st (emit r st).
Proof.
  intros Hr. unfold quiet, changed, commits. cbn [emit requests List.filter].
  rewrite Hr. repeat split.
Qed.

(** After a quiet step, what a later step changes is changed from the
    earlier state as well. *)
Lemma changed_after_quiet boxes last format text n st1 st2 st3 :
  quiet st1 st2 -> changed boxes last format text n st2 st3 ->
  changed boxes last format text n st1 st3.
Proof. unfold quiet, changed. intuition congruence. Qed.

Section Events.

Variable X : XServer.

Lemma set_clipboard_changed text st :
  changed (color_boxes st) (last_clicked_box st) (current_format st)
    (<[63%nat := NUL]> (strncpy (clipboard_text st) text 63)) (S (commits st))
    st (set_clipboard X (Some text) st).
Proof. unfold set_clipboard. cbv zeta. destruct (_ =? _); repeat split. Qed.

Lemma copy_color_from_box_changed i b st :
  color_boxes st !! i = Some b ->
  changed (color_boxes st) (last_clicked_box st) (current_format st)
    (committed (box_color b) (current_format st) st) (S (commits st))
    st (copy_color_from_box X (Some i) st).
Proof.
  intros Hb. unfold copy_color_from_box. rewrite Hb. apply set_clipboard_changed.
Qed.

Lemma draw_colorbox_quiet box st : quiet st (draw_colorbox box st).
Proof.
  unfold draw_colorbox. destruct box as [i|]; [|apply quiet_refl].
  destruct (color_boxes st !! i); [now apply quiet_emit|apply quiet_refl].
Qed.

Lemma draw_all_boxes_quiet st : quiet st (draw_all_boxes st).
Proof.
  unfold draw_all_boxes. generalize (seq 0 (Z.to_nat PALETTE_LENGTH)).
  intros l. revert st. induction l as [|i l IH]; intros st; simpl.
  - apply quiet_refl.
  - eapply quiet_trans; [apply (draw_colorbox_quiet (Some i))|apply IH].
Qed.

Lemma handle_selection_request_quiet req st :
  quiet st (handle_selection_request X req st).
Proof.
  unfold handle_selection_request. cbv zeta.
  destruct (_ =? _); [repeat split|]. destruct (_ || _); repeat split.
Qed.

Lemma context_menu_open_quiet i x y st :
  quiet st (state (context_menu_open X i x y st))
  /\ exists menu_win, control (context_menu_open X i x y st) = InMenu menu_win i (-1).
Proof.
  unfold context_menu_open.
  destruct (XTranslateCoordinates X x y) as [rx ry].
  destruct (menu_position X st rx ry) as [mx my].
  split; [repeat split|]. eexists. reflexivity.
Qed.

(** A primary press on box [i]. *)
Lemma press_changed st w x y i b :
  find_box st x y = Some i -> color_boxes st !! i = Some b ->
  changed (alter (set_clicked true) i (color_boxes st)) (Some i) (current_format st)
    (committed (box_color b) (current_format st) st) (S (commits st))
    st (state (handle_event X (ButtonPress w Button1 x y) st))
  /\ control (handle_event X (ButtonPress w Button1 x y) st) = InMain.
Proof.
  intros Hf Hb. cbn [handle_event]. rewrite Z.eqb_refl, Hf. cbv zeta.
  split; [|reflexivity]. cbn [state].
  destruct (copy_color_from_box_changed i b st Hb)
    as (Hc1 & Hc2 & Hc3 & Hc4 & Hc5 & Hc6 & Hc7 & Hc8 & Hc9 & Hc10).
  set (st1 := copy_color_from_box X (Some i) st) in *.
  set (st2 := with_boxes (alter (set_clicked true) i (color_boxes st1)) st1).
  destruct (draw_colorbox_quiet (Some i) st2)
    as (Hd1 & Hd2 & Hd3 & Hd4 & Hd5 & Hd6 & Hd7 & Hd8 & Hd9 & Hd10).
  unfold set_last_clicked_box, changed.
  cbn [with_last_clicked color_boxes last_clicked_box current_format clipboard_text
         rect_size dock_width dock_height app_window wm_delete].
  change (commits (with_last_clicked (Some i) (draw_colorbox (Some i) st2)))
    with (commits (draw_colorbox (Some i) st2)).
  rewrite Hd1, Hd3, Hd4, Hd5, Hd6, Hd7, Hd8, Hd9, Hd10.
  subst st2. unfold commits.
  cbn [with_boxes color_boxes last_clicked_box current_format clipboard_text
         rect_size dock_width dock_height app_window wm_delete requests].
  fold (commits st1). rewrite Hc1.
  repeat split; assumption.
Qed.

Lemma clear_changed i st :
  changed (alter (set_clicked false) i (color_boxes st)) None (current_format st)
    (clipboard_text st) (commits st) st
    (clear_last_clicked_box (draw_colorbox (Some i) (colorbox_on_release (Some i) st))).
Proof.
  set (st1 := colorbox_on_release (Some i) st).
  unfold clear_last_clicked_box, draw_colorbox.
  destruct (color_boxes st1 !! i); repeat split.
Qed.

(** What a turn of the menu loop does with an event that copies and with
    one that does not. *)
Lemma context_menu_turn_copies menu_win box hover st ev :
  -1 <= hover < FORMAT_COUNT ->
  let d := {| control := InMenu menu_win box hover; state := st |} in
  (copies d ev = true ->
   exists format, 0 <= format <= FORMAT_COUNT
                  /\ context_menu_turn menu_win hover ev = MenuDone format)
  /\ (copies d ev = false ->
      context_menu_turn menu_win hover ev = MenuDone (-1)
      \/ exists hover' redraw,
           -1 <= hover' < FORMAT_COUNT
           /\ context_menu_turn menu_win hover ev = MenuOpen hover' redraw).
Proof.
  intros Hh d. unfold copies, context_menu_turn. cbn [control d].
  unfold FORMAT_COUNT, MENU_ITEM_HEIGHT in *. cbv zeta.
  destruct ev as [w count|w button x y|w button x y|w x y|w|req|w data0|w];
    cbn [event_window].
  2:{ destruct (w =? menu_win); cbn [negb andb].
      - destruct (0 <=? y) eqn:E1; destruct (y <=? 20 * 8) eqn:E2; cbn [andb].
        + apply Z.leb_le in E1, E2. split; [|discriminate]. intros _.
          assert (E3 : (y <? 0) = false) by (apply Z.ltb_ge; lia).
          assert (E4 : (20 * 8 <? y) = false) by (apply Z.ltb_ge; lia).
          rewrite E3, E4. cbn [orb]. exists (Z.quot y 20). split; [|reflexivity].
          rewrite Z.quot_div_nonneg by lia.
          split; [apply Z.div_pos; lia|apply Z.div_le_upper_bound; lia].
        + apply Z.leb_gt in E2. split; [discriminate|]. intros _. left.
          assert (E4 : (20 * 8 <? y) = true) by (apply Z.ltb_lt; lia).
          rewrite E4, orb_true_r. reflexivity.
        + apply Z.leb_gt in E1. split; [discriminate|]. intros _. left.
          assert (E3 : (y <? 0) = true) by (apply Z.ltb_lt; lia).
          rewrite E3. reflexivity.
        + apply Z.leb_gt in E1. split; [discriminate|]. intros _. left.
          assert (E3 : (y <? 0) = true) by (apply Z.ltb_lt; lia).
          rewrite E3. reflexivity.
      - split; [discriminate|]. intros _. now left. }
  all: split; [discriminate|]; intros _; right.
  all: destruct (negb (_ =? menu_win)); try (exists hover; eexists; split; [lia|reflexivity]).
  - destruct ((Z.quot y 20 <? 0) || (8 <=? Z.quot y 20)) eqn:E.
    + destruct (negb (-1 =? hover)); eexists; eexists; (split; [|reflexivity]); lia.
    + apply orb_false_iff in E as [E1 E2]. apply Z.ltb_ge in E1. apply Z.leb_gt in E2.
      destruct (negb (Z.quot y 20 =? hover)); eexists; eexists; (split; [|reflexivity]); lia.
  - destruct (negb (hover =? -1)); eexists; eexists; (split; [|reflexivity]); lia.
Qed.

(** Every event has one of the four effects; it is one of the two that
    commit exactly when the event is one of [copies]. The dock then waits in
    the menu only on a box of the panel. *)
Lemma step_effect d ev :
  menu_valid d ->
  let d' := step X d ev in
  Effect (state d) (state d')
  /\ (commits (state d')
      = if copies d ev then S (commits (state d)) else commits (state d))
  /\ (copies d ev = false ->
      current_format (state d') = current_format (state d)
      /\ clipboard_text (state d') = clipboard_text (state d))
  /\ match control d' with
     | InMenu _ box hover =>
         is_Some (color_boxes (state d) !! box) /\ -1 <= hover < FORMAT_COUNT
     | _ => True
     end.
Proof.
  intros Hv d'. subst d'. destruct d as [c st]. unfold menu_valid in Hv.
  cbn [control state] in *. unfold step. cbn [control state].
  assert (Hq : forall st', quiet st st' ->
             Effect st st' /\ commits st' = commits st
             /\ current_format st' = current_format st
             /\ clipboard_text st' = clipboard_text st).
  { intros st' H. split; [now apply Quiet|]. unfold quiet, changed in H. tauto. }
  assert (Hr : forall i st', last_clicked_box st = Some i ->
             changed (alter (set_clicked false) i (color_boxes st)) None (current_format st)
               (clipboard_text st) (commits st) st st' ->
             Effect st st' /\ commits st' = commits st
             /\ current_format st' = current_format st
             /\ clipboard_text st' = clipboard_text st).
  { intros i st' Hl H. split; [now apply (Released st st' i)|]. unfold changed in H. tauto. }
  destruct c as [|menu_win box hover|].
  - unfold copies. cbn [control state].
    destruct ev as [w count|w button x y|w button x y|w x y|w|req|w data0|w].
    + cbn [handle_event control state].
      destruct (Hq (if count =? 0 then draw_all_boxes st else st)) as (H1 & H2 & H3 & H4).
      { destruct (count =? 0); [apply draw_all_boxes_quiet|apply quiet_refl]. }
      auto.
    + destruct (button =? Button1) eqn:Eb.
      * apply Z.eqb_eq in Eb. subst button.
        destruct (find_box st x y) as [i|] eqn:Hf.
        -- destruct (find_box_Some _ _ _ _ Hf) as [b Hb].
           destruct (press_changed st w x y i b Hf Hb) as [Hc Hctl].
           rewrite Hctl. cbn [andb]. rewrite bool_decide_eq_true_2 by eauto.
           split; [now apply (Pressed st _ i b)|].
           split; [unfold changed in Hc; tauto|]. split; [discriminate|exact I].
        -- cbn [handle_event]. rewrite Z.eqb_refl, Hf. cbn [control state andb].
           rewrite bool_decide_eq_false_2 by (intros [? ?]; discriminate).
           destruct (Hq st (quiet_refl st)) as (H1 & H2 & H3 & H4). auto.
      * cbn [handle_event]. rewrite Eb. cbn [andb].
        destruct (button =? Button3).
        -- destruct (find_box st x y) as [i|] eqn:Hf.
           ++ destruct (context_menu_open_quiet i x y st) as (Ho & menu_win & Hctl).
              rewrite Hctl. destruct (Hq _ Ho) as (H1 & H2 & H3 & H4).
              repeat split; auto; try (unfold FORMAT_COUNT; lia).
              apply (find_box_Some _ _ _ _ Hf).
           ++ cbn [control state]. destruct (Hq st (quiet_refl st)) as (H1 & H2 & H3 & H4). auto.
        -- cbn [control state]. destruct (Hq st (quiet_refl st)) as (H1 & H2 & H3 & H4). auto.
    + cbn [handle_event]. unfold get_last_clicked_box.
      destruct (find_box st x y) as [i|].
      * destruct (bool_decide (last_clicked_box st = Some i)) eqn:E; cbn [control state].
        -- apply bool_decide_eq_true in E.
           destruct (Hr i _ E (clear_changed i st)) as (H1 & H2 & H3 & H4). auto.
        -- destruct (Hq st (quiet_refl st)) as (H1 & H2 & H3 & H4). auto.
      * cbn [control state]. destruct (Hq st (quiet_refl st)) as (H1 & H2 & H3 & H4). auto.
    + cbn [handle_event]. unfold get_last_clicked_box.
      destruct (last_clicked_box st) as [last|] eqn:Hl.
      * destruct (bool_decide (Some last <> find_box st x y)); cbn [control state].
        -- destruct (Hr last _ eq_refl (clear_changed last st)) as (H1 & H2 & H3 & H4).
           auto.
        -- destruct (Hq st (quiet_refl st)) as (H1 & H2 & H3 & H4). auto.
      * cbn [control state]. destruct (Hq st (quiet_refl st)) as (H1 & H2 & H3 & H4). auto.
    + cbn [handle_event control state].
      destruct (Hq st (quiet_refl st)) as (H1 & H2 & H3 & H4). auto.
    + cbn [handle_event control state].
      destruct (Hq _ (handle_selection_request_quiet req st)) as (H1 & H2 & H3 & H4). auto.
    + cbn [handle_event]. destruct (data0 =? wm_delete st); cbn [control state].
      * destruct (Hq (cleanup_dock st)) as (H1 & H2 & H3 & H4); [|auto].
        now apply quiet_emit.
      * destruct (Hq st (quiet_refl st)) as (H1 & H2 & H3 & H4). auto.
    + cbn [handle_event control state].
      destruct (Hq st (quiet_refl st)) as (H1 & H2 & H3 & H4). auto.
  - destruct Hv as [[b Hb] Hh].
    destruct (context_menu_turn_copies menu_win box hover st ev Hh) as [Hyes Hno].
    cbv zeta in Hyes, Hno.
    destruct (copies {| control := InMenu menu_win box hover; state := st |} ev).
    + destruct (Hyes eq_refl) as (format & Hfmt & ->). cbn [control state].
      unfold context_menu_chosen.
      assert (E : (0 <=? format) = true) by (apply Z.leb_le; lia). rewrite E.
      set (st1 := with_format format (emit (DestroyMenuWindow menu_win) st)).
      pose proof (copy_color_from_box_changed box b st1 Hb) as Hc.
      assert (Hc' : changed (color_boxes st) (last_clicked_box st) format
                      (committed (box_color b) format st) (S (commits st)) st
                      (copy_color_from_box X (Some box) st1)) by exact Hc.
      split; [now apply (Chosen st _ box b format)|].
      split; [unfold changed in Hc'; tauto|]. split; [discriminate|exact I].
    + destruct (Hno eq_refl) as [->|(hover' & redraw & Hh' & ->)]; cbn [control state].
      * unfold context_menu_chosen. change (0 <=? -1) with false. cbv iota.
        destruct (Hq (emit (DestroyMenuWindow menu_win) st)) as (H1 & H2 & H3 & H4);
          [now apply quiet_emit|auto].
      * destruct (Hq (if redraw then emit (DrawContextMenu hover' (current_format st)) st
                      else st)) as (H1 & H2 & H3 & H4).
        { destruct redraw; [now apply quiet_emit|apply quiet_refl]. }
        repeat split; eauto; lia.
  - cbn [control state]. unfold copies. cbn [control].
    destruct (Hq st (quiet_refl st)) as (H1 & H2 & H3 & H4). auto.
Qed.

End Events.

Lemma changed_length boxes last format text n st st' :
  changed boxes last format text n st st' -> color_boxes st' = boxes.
Proof. unfold changed. tauto. Qed.

Lemma effect_boxes st st' :
  Effect st st' ->
  exists c i, color_boxes st' = alter (set_clicked c) i (color_boxes st)
              \/ color_boxes st' = color_boxes st.
Proof.
  intros [H|i b _ H|i _ H|i b format _ _ H]; apply changed_length in H.
  - exists true, 0%nat. auto.
  - exists true, i. auto.
  - exists false, i. auto.
  - exists true, 0%nat. auto.
Qed.

Lemma effect_lookup st st' i :
  Effect st st' -> is_Some (color_boxes st !! i) -> is_Some (color_boxes st' !! i).
Proof.
  intros H. destruct (effect_boxes st st' H) as (c & j & [-> | ->]); [|auto].
  rewrite !lookup_lt_is_Some, length_alter. auto.
Qed.

Lemma effect_tracked_pressed st st' :
  Effect st st' -> tracked_pressed st -> tracked_pressed st'.
Proof.
  unfold tracked_pressed.
  intros [H|i b Hb H|i _ H|i b format _ _ H] Ht j;
    destruct H as (-> & -> & _); try apply Ht; try discriminate.
  intros Hj. injection Hj as <-. now rewrite list_lookup_alter_eq, Hb.
Qed.

Lemma effect_same_panel st0 st st' :
  Effect st st' -> same_panel st0 st -> same_panel st0 st'.
Proof.
  unfold same_panel.
  intros [H|i b _ H|i _ H|i b format _ _ H] (H1 & H2 & H3 & H4 & H5 & H6);
    destruct H as (-> & _ & _ & _ & _ & -> & -> & -> & -> & ->);
    rewrite ?fmap_alter_set_clicked; auto 10.
Qed.

Lemma committed_terminated color format st :
  length (clipboard_text st) = Z.to_nat CLIPBOARD_BUFFER_SIZE ->
  length (committed color format st) = Z.to_nat CLIPBOARD_BUFFER_SIZE
  /\ committed color format st !! Z.to_nat (CLIPBOARD_BUFFER_SIZE - 1) = Some NUL.
Proof.
  unfold committed.
  change (Z.to_nat CLIPBOARD_BUFFER_SIZE) with 64%nat.
  change (Z.to_nat (CLIPBOARD_BUFFER_SIZE - 1)) with 63%nat.
  intros Hlen.
  assert (Hs : length (strncpy (clipboard_text st)
                         (format_color color format [] CLIPBOARD_BUFFER_SIZE) 63)
               = 64%nat) by (rewrite length_strncpy; lia).
  split; [now rewrite length_insert|]. apply list_lookup_insert_eq. lia.
Qed.

Lemma effect_buffer st st' :
  Effect st st' -> buffer_terminated st -> buffer_terminated st'.
Proof.
  unfold buffer_terminated.
  intros [H|i b _ H|i _ H|i b format _ _ H] [Hl Hn];
    destruct H as (_ & _ & _ & -> & _); auto; now apply committed_terminated.
Qed.

Lemma effect_format st st' :
  Effect st st' -> 0 <= current_format st <= FORMAT_COUNT ->
  0 <= current_format st' <= FORMAT_COUNT.
Proof.
  intros [H|i b _ H|i _ H|i b format _ Hf H] Hc;
    destruct H as (_ & _ & -> & _); auto.
Qed.

(** The string in the buffer after a commit of a rendering. *)
Lemma c_str_committed color format st :
  length (clipboard_text st) = Z.to_nat CLIPBOARD_BUFFER_SIZE ->
  c_str (committed color format st) = format_color color format [] CLIPBOARD_BUFFER_SIZE.
Proof.
  intros Hlen. unfold committed.
  change (Z.to_nat (CLIPBOARD_BUFFER_SIZE - 1)) with 63%nat.
  destruct (format_color_clean color format) as [Hnn Hl].
  rewrite c_str_strncpy by (rewrite Hlen; change (Z.to_nat CLIPBOARD_BUFFER_SIZE) with 64%nat; lia).
  rewrite (c_str_id _ Hnn). now apply take_ge.
Qed.

(** A buffer with a NUL at index [k] holds a string of at most [k]
    characters. *)
Lemma c_str_lookup_nul (bytes : list ascii) (k : nat) :
  bytes !! k = Some NUL -> (length (c_str bytes) <= k)%nat.
Proof.
  revert k. induction bytes as [|c bytes IH]; intros k H; [discriminate|].
  cbn [c_str]. destruct (Ascii.eqb c NUL) eqn:E; [simpl; lia|].
  destruct k as [|k].
  - injection H as ->. discriminate.
  - simpl. apply IH in H. lia.
Qed.

Section Reachable.

Variable X : XServer.
Variable window : Window.

Lemma step_well_formed d ev :
  well_formed X window d -> well_formed X window (step X d ev).
Proof.
  intros (Hv & Ht & Hp & Hb & Hf).
  destruct (step_effect X d ev Hv) as (He & _ & _ & Hm). cbv zeta in He, Hm.
  repeat split.
  - unfold menu_valid. destruct (control (step X d ev)) as [|menu_win box hover|]; auto.
    destruct Hm as [Hbox Hh]. split; [|exact Hh]. eapply effect_lookup; eassumption.
  - eapply effect_tracked_pressed; eassumption.
  - apply (effect_same_panel _ _ _ He Hp).
  - apply (effect_same_panel _ _ _ He Hp).
  - apply (effect_same_panel _ _ _ He Hp).
  - apply (effect_same_panel _ _ _ He Hp).
  - apply (effect_same_panel _ _ _ He Hp).
  - apply (effect_same_panel _ _ _ He Hp).
  - apply (effect_buffer _ _ He Hb).
  - apply (effect_buffer _ _ He Hb).
  - apply (effect_format _ _ He Hf).
  - apply (effect_format _ _ He Hf).
Qed.

Lemma initial_well_formed : well_formed X window (initial_dock X window).
Proof.
  unfold well_formed, initial_dock. cbn [control state].
  split; [exact I|]. split; [intros i Hi; discriminate|].
  split; [repeat split|]. split; [split; reflexivity|].
  change (current_format (initial_state X window)) with FORMAT_HTML_HEX.
  unfold FORMAT_HTML_HEX, FORMAT_COUNT. lia.
Qed.

Lemma run_well_formed evs d :
  well_formed X window d -> well_formed X window (run X d evs).
Proof.
  revert d. induction evs as [|ev evs IH]; intros d H; [exact H|].
  cbn [run foldl]. apply IH. now apply step_well_formed.
Qed.

Lemma reachable_well_formed evs :
  well_formed X window (run X (initial_dock X window) evs).
Proof. apply run_well_formed, initial_well_formed. Qed.

(** The boxes of a state with the panel of the initial state. *)
Lemma panel_box st i b :
  same_panel (initial_state X window) st -> color_boxes st !! i = Some b ->
  palette !! i = Some (box_color b, box_label b)
  /\ box_x b = PADDING
  /\ (i < 16)%nat.
Proof.
  intros (Hboxes & _) Hb.
  assert (H : (set_clicked false <$> color_boxes st) !! i = Some (set_clicked false b))
    by (now rewrite list_lookup_fmap, Hb).
  rewrite Hboxes, list_lookup_fmap in H.
  unfold initial_state, initialize_color_boxes in H. cbn [with_boxes color_boxes] in H.
  rewrite list_lookup_imap in H.
  destruct (palette !! i) as [[color label]|] eqn:Hp; [|discriminate].
  apply lookup_lt_Some in Hp as Hlt. change (length palette) with 16%nat in Hlt.
  cbn in H. injection H as Hx _ Hc Hl. rewrite <- Hc, <- Hl, <- Hx. auto.
Qed.

Lemma panel_find_box st x y :
  same_panel (initial_state X window) st ->
  find_box st x y = find_box (initial_state X window) x y.
Proof.
  intros (Hboxes & Hr & _). unfold find_box.
  rewrite (find_box_from_rect _ _ _ _ _ _ Hr). now apply find_box_from_flags.
Qed.

(** X6. After every sequence of events, the last-clicked box, when there is
    one, is a box of the panel and is drawn pressed. (The converse fails: a
    box can stay pressed without being the last-clicked one.) *)
Theorem last_clicked_is_pressed (evs : list XEvent) (i : nat) :
  last_clicked_box (state (run X (initial_dock X window) evs)) = Some i ->
  is_clicked <$> color_boxes (state (run X (initial_dock X window) evs)) !! i = Some true.
Proof.
  destruct (reachable_well_formed evs) as (_ & Ht & _). apply Ht.
Qed.

(** X7. No sequence of events moves, recolours, renames, adds or removes a
    box, or changes the sizes, the window or the atom of WM_DELETE_WINDOW:
    apart from the pressed flags the panel stays as laid out, box [i] has
    colour and label [i] of the palette, and [find_box] answers as it does
    in the initial state. *)
Theorem panel_never_changes (evs : list XEvent) :
  let st := state (run X (initial_dock X window) evs) in
  same_panel (initial_state X window) st
  /\ length (color_boxes st) = 16%nat
  /\ (forall i b, color_boxes st !! i = Some b ->
                  palette !! i = Some (box_color b, box_label b))
  /\ (forall x y, find_box st x y = find_box (initial_state X window) x y).
Proof.
  intros st. destruct (reachable_well_formed evs) as (_ & _ & Hp & _). fold st in Hp.
  split; [exact Hp|]. split; [|split].
  - destruct Hp as (Hboxes & _).
    apply (f_equal length) in Hboxes. rewrite !length_fmap in Hboxes. rewrite Hboxes.
    unfold initial_state, initialize_color_boxes. cbn [with_boxes color_boxes].
    now rewrite length_imap.
  - intros i b Hb. now apply (panel_box st i b Hp).
  - intros x y. now apply panel_find_box.
Qed.

(** X8. The dock commits to the clipboard on two kinds of event only: in
    the loop of [main], a primary press on a box; in the loop of the menu, a
    press in the menu window, with any button, at a vertical offset from 0
    to 160. Each of them makes exactly one commit; every other event, in
    every reachable state, leaves the number of commits, the buffer and the
    current format as they were. *)
Theorem commits_exactly_on_copy (evs : list XEvent) (ev : XEvent) :
  let d := run X (initial_dock X window) evs in
  let d' := step X d ev in
  commits (state d') = (if copies d ev then S (commits (state d)) else commits (state d))
  /\ (copies d ev = false ->
      current_format (state d') = current_format (state d)
      /\ clipboard_text (state d') = clipboard_text (state d)).
Proof.
  intros d d'. destruct (reachable_well_formed evs) as (Hv & _).
  destruct (step_effect X d ev Hv) as (_ & Hc & Hq & _). auto.
Qed.

(** X9. After every sequence of events the clipboard buffer has its 64
    bytes, the last of them a NUL, and so holds a string of at most 63
    characters; the current format is one of the eight or [FORMAT_COUNT]. *)
Theorem buffer_always_terminated (evs : list XEvent) :
  let st := state (run X (initial_dock X window) evs) in
  length (clipboard_text st) = Z.to_nat CLIPBOARD_BUFFER_SIZE
  /\ clipboard_text st !! Z.to_nat (CLIPBOARD_BUFFER_SIZE - 1) = Some NUL
  /\ Z.of_nat (strlen (clipboard_text st)) <= CLIPBOARD_BUFFER_SIZE - 1
  /\ 0 <= current_format st <= FORMAT_COUNT.
Proof.
  intros st. destruct (reachable_well_formed evs) as (_ & _ & _ & [Hl Hn] & Hf).
  fold st in Hl, Hn, Hf. split; [exact Hl|]. split; [exact Hn|]. split; [|exact Hf].
  apply c_str_lookup_nul in Hn. unfold strlen.
  change (Z.to_nat (CLIPBOARD_BUFFER_SIZE - 1)) with 63%nat in Hn.
  unfold CLIPBOARD_BUFFER_SIZE. lia.
Qed.

(** X10. In every state the dock can reach in the loop of [main], a primary
    press at a point of box [i] leaves in the buffer the whole rendering of
    colour [i] of the palette in the current format, whatever was copied
    before, and a request for the text that comes next is answered with
    that rendering. *)
Theorem primary_press_copies (evs : list XEvent) (w : Window) (x y : Z) (i : nat)
    (req : XSelectionRequestEvent) :
  let d := run X (initial_dock X window) evs in
  control d = InMain ->
  find_box (state d) x y = Some i ->
  req_target req = XA_STRING ->
  XInternAtom X "TARGETS" <> XA_STRING ->
  exists color label,
    palette !! i = Some (color, label)
    /\ c_str (clipboard_text (state (step X d (ButtonPress w Button1 x y))))
       = format_color color (current_format (state d)) [] CLIPBOARD_BUFFER_SIZE
    /\ reply X req (state (step X d (ButtonPress w Button1 x y)))
       = [ SendEvent (req_requestor req)
             {| notify_requestor := req_requestor req;
                notify_selection := req_selection req;
                notify_target := req_target req;
                notify_property := req_property req;
                notify_time := req_time req |};
           ChangeProperty (req_requestor req) (req_property req) XA_STRING 8
             (Bytes (format_color color (current_format (state d)) []
                       CLIPBOARD_BUFFER_SIZE)) ].
Proof.
  intros d Hctl Hf Ht Hne.
  destruct (reachable_well_formed evs) as (_ & _ & Hp & [Hl _] & _). fold d in Hp, Hl.
  destruct (find_box_Some _ _ _ _ Hf) as [b Hb].
  destruct (panel_box (state d) i b Hp Hb) as (Hpal & _).
  exists (box_color b), (box_label b). split; [exact Hpal|].
  destruct (press_changed X (state d) w x y i b Hf Hb) as [(_ & _ & _ & Hc & _) _].
  assert (Hs : step X d (ButtonPress w Button1 x y)
               = handle_event X (ButtonPress w Button1 x y) (state d)).
  { unfold step. now rewrite Hctl. }
  rewrite Hs.
  assert (Hstr : c_str (clipboard_text
                          (state (handle_event X (ButtonPress w Button1 x y) (state d))))
                 = format_color (box_color b) (current_format (state d)) []
                     CLIPBOARD_BUFFER_SIZE).
  { rewrite Hc. now apply c_str_committed. }
  split; [exact Hstr|].
  set (st' := state (handle_event X (ButtonPress w Button1 x y) (state d))) in *.
  unfold reply, handle_selection_request. cbv zeta. rewrite Ht.
  destruct (XA_STRING =? XInternAtom X "TARGETS") eqn:E;
    [apply Z.eqb_eq in E; congruence|].
  rewrite Z.eqb_refl. cbn [orb requests emit]. rewrite Hstr.
  cbn [length]. rewrite Nat.sub_succ_l by lia. rewrite Nat.sub_succ_l, Nat.sub_diag by lia.
  reflexivity.
Qed.

End Reachable.

Lemma last_clicked_is_pressed_witness :
  is_clicked <$> color_boxes (state (run example_server example_dock two_presses)) !! 1%nat
  = Some true.
Proof.
  apply (last_clicked_is_pressed example_server 7 two_presses 1).
  vm_compute. reflexivity.
Defined.

Lemma primary_press_copies_witness :
  c_str (clipboard_text
           (state (step example_server (run example_server example_dock two_presses)
                     (ButtonPress 7 Button1 10 130))))
  = lit "#434C5E".
Proof.
  destruct (primary_press_copies example_server 7 two_presses 7 10 130 2
              {| req_owner := 7; req_requestor := 42; req_selection := 1;
                 req_target := XA_STRING; req_property := 77; req_time := 0 |})
    as (color & label & Hpal & Hstr & _).
  - vm_compute. reflexivity.
  - vm_compute. reflexivity.
  - reflexivity.
  - vm_compute. discriminate.
  - etransitivity; [exact Hstr|].
    vm_compute in Hpal. injection Hpal as <- _. vm_compute. reflexivity.
Defined.

(** ** The clipboard and its requestors *)

Lemma take_added {A} (pre l : list A) :
  take (length (pre ++ l) - length l) (pre ++ l) = pre.
Proof. rewrite length_app, Nat.add_sub. apply take_app_length. Qed.

(** [strncpy] into a 64-byte buffer and the NUL stored at its end leave the
    text, cut to 63 characters, and NULs up to the end of the buffer. *)
Lemma strncpy_padded (dest text : list ascii) :
  length dest = 64%nat ->
  <[63%nat := NUL]> (strncpy dest text 63)
  = take 63 (c_str text) ++ replicate (64 - length (take 63 (c_str text))) NUL.
Proof.
  intros Hlen. unfold strncpy.
  assert (Hd : exists c, drop 63 dest = [c]).
  { destruct (drop 63 dest) as [|c [|c' rest]] eqn:E;
      apply (f_equal length) in E; rewrite length_drop, Hlen in E; simpl in E;
      try lia. eauto. }
  destruct Hd as [c ->].
  set (s := c_str text).
  assert (Ht : take 63 (s ++ replicate 63 NUL)
               = take 63 s ++ replicate (63 - length (take 63 s)) NUL).
  { destruct (le_lt_dec 63 (length s)) as [Hs|Hs].
    - rewrite take_app_le by exact Hs. rewrite length_take.
      replace (63 - 63 `min` length s)%nat with 0%nat by lia.
      simpl. now rewrite app_nil_r.
    - rewrite take_app_ge by lia. rewrite (take_ge s) by lia.
      rewrite take_replicate. f_equal. f_equal. lia. }
  rewrite Ht.
  assert (Hl : length (take 63 s ++ replicate (63 - length (take 63 s)) NUL) = 63%nat).
  { rewrite length_app, length_replicate, length_take. lia. }
  rewrite insert_app_r_alt by lia. rewrite Hl, Nat.sub_diag. cbn [insert list_insert].
  rewrite <- app_assoc. f_equal.
  replace (64 - length (take 63 s))%nat with (63 - length (take 63 s) + 1)%nat
    by (rewrite length_take; lia).
  now rewrite replicate_add.
Qed.

Section Selection.

Variable X : XServer.

(** X11. [set_clipboard] overwrites the whole buffer: afterwards it holds
    the text cut to 63 characters and NULs from there to its end, nothing of
    what it held before. It always asks for the ownership of CLIPBOARD; it
    stores the cut text in the property UTF8_STRING of its own window when
    the server then names the dock as the owner, and sends nothing more
    when it does not (the buffer is overwritten all the same). *)
Theorem set_clipboard_overwrites (st : AppState) (text : list ascii) :
  length (clipboard_text st) = Z.to_nat CLIPBOARD_BUFFER_SIZE ->
  let st' := set_clipboard X (Some text) st in
  let claim := SetSelectionOwner (XInternAtom X "CLIPBOARD") (app_window st) in
  clipboard_text st'
  = take 63 (c_str text) ++ replicate (64 - length (take 63 (c_str text))) NUL
  /\ (XGetSelectionOwner X (claim :: requests st) = app_window st ->
      requests st'
      = ChangeProperty (app_window st) (XInternAtom X "UTF8_STRING")
          (XInternAtom X "UTF8_STRING") 8 (Bytes (take 63 (c_str text)))
        :: claim :: requests st)
  /\ (XGetSelectionOwner X (claim :: requests st) <> app_window st ->
      requests st' = claim :: requests st).
Proof.
  change (Z.to_nat CLIPBOARD_BUFFER_SIZE) with 64%nat.
  intros Hlen st' claim. subst st'.
  split; [rewrite set_clipboard_text; now apply strncpy_padded|].
  unfold set_clipboard. cbv zeta.
  change (Z.to_nat (CLIPBOARD_BUFFER_SIZE - 1)) with 63%nat.
  cbn [emit with_clipboard requests app_window clipboard_text]. fold claim.
  split; intros Ho.
  - apply Z.eqb_eq in Ho. rewrite Ho. cbn [requests].
    rewrite c_str_strncpy by lia. reflexivity.
  - apply Z.eqb_neq in Ho. rewrite Ho. reflexivity.
Qed.

(** X12. A request for one of the three text targets (STRING, UTF8_STRING,
    COMPOUND_TEXT) is answered by storing the string of the buffer, up to
    its first NUL, in the property the requestor named, as 8-bit data of
    the requested type, and then by a notification that names that
    property. *)
Theorem selection_request_text (req : XSelectionRequestEvent) (st : AppState) :
  req_target req <> XInternAtom X "TARGETS" ->
  supported_target X (req_target req) = true ->
  reply X req st
  = [ SendEvent (req_requestor req)
        {| notify_requestor := req_requestor req; notify_selection := req_selection req;
           notify_target := req_target req; notify_property := req_property req;
           notify_time := req_time req |};
      ChangeProperty (req_requestor req) (req_property req) (req_target req) 8
        (Bytes (c_str (clipboard_text st))) ].
Proof.
  intros Hne Hs. unfold supported_target in Hs.
  apply Z.eqb_neq in Hne. rewrite Hne in Hs. cbn [orb] in Hs.
  unfold reply, handle_selection_request. cbv zeta. rewrite Hne, Hs.
  cbn [requests emit]. apply (take_added [_; _]).
Qed.

(** X13. While the menu is open the dock is deaf to everything but a
    button press: any other event, on any window, leaves the menu open on
    the same box and changes nothing in the state but, at most, one more
    drawing of the menu. A selection request is not answered, a
    WM_DELETE_WINDOW message does not close the dock, and a release does not
    lift a pressed box. *)
Theorem menu_is_modal (menu_win : Window) (box : nat) (hover : Z) (st : AppState)
    (ev : XEvent) :
  is_button_press ev = false ->
  exists hover',
    step X {| control := InMenu menu_win box hover; state := st |} ev
    = {| control := InMenu menu_win box hover';
         state := if negb (hover' =? hover) || (is_expose ev && (event_window ev =? menu_win))
                  then emit (DrawContextMenu hover' (current_format st)) st
                  else st |}.
Proof.
  intros Hev. unfold step, context_menu_turn. cbn [control state]. cbv zeta.
  destruct ev as [w count|w button x y|w button x y|w x y|w|req|w data0|w];
    try discriminate; cbn [event_window is_expose andb].
  - exists hover. rewrite Z.eqb_refl. cbn [negb orb].
    destruct (w =? menu_win); reflexivity.
  - exists hover. rewrite Z.eqb_refl. destruct (negb (w =? menu_win)); reflexivity.
  - destruct (negb (w =? menu_win)).
    + exists hover. rewrite Z.eqb_refl. reflexivity.
    + set (row := if (Z.quot y MENU_ITEM_HEIGHT <? 0)
                     || (FORMAT_COUNT <=? Z.quot y MENU_ITEM_HEIGHT)
                  then -1 else Z.quot y MENU_ITEM_HEIGHT).
      destruct (negb (row =? hover)) eqn:E.
      * exists row. rewrite E. reflexivity.
      * exists hover. rewrite Z.eqb_refl. reflexivity.
  - destruct (negb (w =? menu_win)).
    + exists hover. rewrite Z.eqb_refl. reflexivity.
    + destruct (negb (hover =? -1)) eqn:E.
      * exists (-1). rewrite Z.eqb_sym, E. reflexivity.
      * exists hover. rewrite Z.eqb_refl. reflexivity.
  - exists hover. rewrite Z.eqb_refl. destruct (negb (_ =? menu_win)); reflexivity.
  - exists hover. rewrite Z.eqb_refl. destruct (negb (w =? menu_win)); reflexivity.
  - exists hover. rewrite Z.eqb_refl. destruct (negb (w =? menu_win)); reflexivity.
Qed.

(** X14. The row the menu highlights under the pointer is the row a press
    at the same point selects, except on the lower border (offset 160,
    where nothing is highlighted and a press selects row 8) and in the
    twenty pixels above the window (where row 0 is highlighted and a press
    selects nothing). Inside the window it is the offset divided by the
    height of a row. *)
Theorem menu_press_matches_hover (menu_win : Window) (hover : Z) (button x y : Z) :
  y <> MENU_ITEM_HEIGHT * FORMAT_COUNT -> ~ - MENU_ITEM_HEIGHT < y < 0 ->
  exists row redraw,
    context_menu_turn menu_win hover (MotionNotify menu_win x y) = MenuOpen row redraw
    /\ context_menu_turn menu_win row (ButtonPress menu_win button x y) = MenuDone row
    /\ row = (if (0 <=? y) && (y <? MENU_ITEM_HEIGHT * FORMAT_COUNT)
              then y / MENU_ITEM_HEIGHT else -1).
Proof.
  unfold MENU_ITEM_HEIGHT, FORMAT_COUNT. intros H160 Habove.
  unfold context_menu_turn. cbn [event_window]. rewrite Z.eqb_refl. cbn [negb].
  unfold MENU_ITEM_HEIGHT, FORMAT_COUNT. cbv zeta.
  set (row := if (0 <=? y) && (y <? 20 * 8) then y / 20 else -1).
  assert (Hrow : (if (Z.quot y 20 <? 0) || (8 <=? Z.quot y 20) then -1 else Z.quot y 20)
                 = row).
  { subst row. destruct (Z_lt_le_dec y 0) as [Hy|Hy].
    - assert (E : (0 <=? y) = false) by (apply Z.leb_gt; lia). rewrite E. cbn [andb].
      assert (Hq : Z.quot y 20 < 0).
      { rewrite <- (Z.opp_involutive y), Z.quot_opp_l by lia.
        rewrite Z.quot_div_nonneg by lia.
        assert (1 <= - y / 20) by (apply Z.div_le_lower_bound; lia). lia. }
      apply Z.ltb_lt in Hq. now rewrite Hq.
    - rewrite Z.quot_div_nonneg by lia.
      assert (E : (0 <=? y) = true) by (apply Z.leb_le; lia). rewrite E. cbn [andb].
      assert (E0 : (y / 20 <? 0) = false)
        by (apply Z.ltb_ge; apply Z.div_pos; lia).
      rewrite E0. cbn [orb].
      destruct (y <? 20 * 8) eqn:Ey.
      + apply Z.ltb_lt in Ey.
        assert (y / 20 < 8) by (apply Z.div_lt_upper_bound; lia).
        assert (E8 : (8 <=? y / 20) = false) by (apply Z.leb_gt; lia).
        now rewrite E8.
      + apply Z.ltb_ge in Ey.
        assert (8 <= y / 20) by (apply Z.div_le_lower_bound; lia).
        assert (E8 : (8 <=? y / 20) = true) by (apply Z.leb_le; lia).
        now rewrite E8. }
  rewrite Hrow.
  exists row, (negb (row =? hover)). split.
  { destruct (negb (row =? hover)) eqn:E; [reflexivity|].
    apply negb_false_iff, Z.eqb_eq in E. now rewrite E. }
  split; [|reflexivity].
  subst row. destruct (Z_lt_le_dec y 0) as [Hy|Hy].
  - assert (E : (0 <=? y) = false) by (apply Z.leb_gt; lia).
    assert (E' : (y <? 0) = true) by (apply Z.ltb_lt; lia).
    rewrite E, E'. reflexivity.
  - assert (E : (0 <=? y) = true) by (apply Z.leb_le; lia).
    assert (E' : (y <? 0) = false) by (apply Z.ltb_ge; lia).
    rewrite E, E'. cbn [andb orb].
    destruct (y <? 20 * 8) eqn:Ey.
    + apply Z.ltb_lt in Ey.
      assert (E2 : (20 * 8 <? y) = false) by (apply Z.ltb_ge; lia).
      rewrite E2. now rewrite Z.quot_div_nonneg by lia.
    + apply Z.ltb_ge in Ey.
      assert (E2 : (20 * 8 <? y) = true) by (apply Z.ltb_lt; lia).
      now rewrite E2.
Qed.

End Selection.

Lemma set_clipboard_overwrites_witness :
  clipboard_text (set_clipboard example_server (Some (lit "#2E3440")) (state example_dock))
  = take 63 (c_str (lit "#2E3440"))
    ++ replicate (64 - length (take 63 (c_str (lit "#2E3440")))) NUL.
Proof.
  exact (proj1 (set_clipboard_overwrites example_server (state example_dock)
                  (lit "#2E3440") ltac:(vm_compute; reflexivity))).
Defined.

Lemma selection_request_text_witness :
  reply example_server
    {| req_owner := 7; req_requestor := 42; req_selection := 1;
       req_target := XA_STRING; req_property := 77; req_time := 0 |}
    (state example_dock)
  = [ SendEvent 42
        {| notify_requestor := 42; notify_selection := 1; notify_target := XA_STRING;
           notify_property := 77; notify_time := 0 |};
      ChangeProperty 42 77 XA_STRING 8 (Bytes (c_str (clipboard_text (state example_dock)))) ].
Proof.
  apply (selection_request_text example_server
           {| req_owner := 7; req_requestor := 42; req_selection := 1;
              req_target := XA_STRING; req_property := 77; req_time := 0 |}
           (state example_dock)).
  - vm_compute. discriminate.
  - reflexivity.
Defined.

Lemma menu_is_modal_witness :
  exists hover',
    step example_server {| control := InMenu 9 1 (-1); state := state example_dock |}
      (ClientMessage 7 (wm_delete (state example_dock)))
    = {| control := InMenu 9 1 hover';
         state := if negb (hover' =? -1)
                     || (is_expose (ClientMessage 7 (wm_delete (state example_dock)))
                         && (event_window (ClientMessage 7 (wm_delete (state example_dock)))
                             =? 9))
                  then emit (DrawContextMenu hover' (current_format (state example_dock)))
                         (state example_dock)
                  else state example_dock |}.
Proof.
  exact (menu_is_modal example_server 9 1 (-1) (state example_dock)
           (ClientMessage 7 (wm_delete (state example_dock))) eq_refl).
Defined.

Lemma menu_press_matches_hover_witness :
  exists row redraw,
    context_menu_turn 9 (-1) (MotionNotify 9 5 45) = MenuOpen row redraw
    /\ context_menu_turn 9 row (ButtonPress 9 Button3 5 45) = MenuDone row
    /\ row = (if (0 <=? 45) && (45 <? MENU_ITEM_HEIGHT * FORMAT_COUNT)
              then 45 / MENU_ITEM_HEIGHT else -1).
Proof.
  exact (menu_press_matches_hover 9 (-1) Button3 5 45
           ltac:(unfold MENU_ITEM_HEIGHT, FORMAT_COUNT; lia)
           ltac:(unfold MENU_ITEM_HEIGHT; lia)).
Defined.

(** ** Where things are put on the screen *)

Lemma int_of_uint32_small n : 0 <= n < 2147483648 -> int_of_uint32 n = n.
Proof.
  intros Hn. unfold int_of_uint32.
  assert (E : (n <? 2147483648) = true) by (apply Z.ltb_lt; lia). now rewrite E.
Qed.

Lemma int_of_uint32_wrapped n :
  - 2147483648 <= n < 2147483648 -> int_of_uint32 (uint32_t n) = n.
Proof.
  intros Hn. destruct (Z_lt_le_dec n 0) as [Hneg|Hpos].
  - rewrite uint32_t_negative by lia. unfold int_of_uint32.
    assert (E : (n + 4294967296 <? 2147483648) = false) by (apply Z.ltb_ge; lia).
    rewrite E. lia.
  - rewrite uint32_t_small by lia. apply int_of_uint32_small. lia.
Qed.

Lemma half_unsigned_negative n :
  - 2147483648 <= n < 0 -> (n + 4294967296) / 2 = 2147483648 - (- n + 1) / 2.
Proof.
  intros Hn.
  pose proof (Z.div_mod (n + 4294967296) 2 ltac:(lia)) as H1.
  pose proof (Z.mod_pos_bound (n + 4294967296) 2 ltac:(lia)) as H2.
  pose proof (Z.div_mod (- n + 1) 2 ltac:(lia)) as H3.
  pose proof (Z.mod_pos_bound (- n + 1) 2 ltac:(lia)) as H4.
  lia.
Qed.

Lemma quot_negative n : n < 0 -> Z.quot n 2 = - (- n / 2).
Proof.
  intros Hn. rewrite <- (Z.opp_involutive n) at 1.
  rewrite Z.quot_opp_l by lia. now rewrite Z.quot_div_nonneg by lia.
Qed.

Section Screen.

Variable X : XServer.


(** X16. On a screen at least as high and as wide as the dock,
    [initialize_dock] creates the window where it then moves it: flush with
    the right edge of the screen, wholly on the screen, with as much room
    above it as below or one pixel less. On a screen lower than the dock
    the two calls disagree: the window is created some 2^31 pixels below
    the screen and then moved so that it sticks out at the top and at the
    bottom. *)
Theorem initialize_dock_centred (dock_width dock_height : Z) :
  0 <= dock_width <= DisplayWidth X -> DisplayWidth X < 2147483648 ->
  0 <= dock_height < 2147483648 -> 0 <= DisplayHeight X < 2147483648 ->
  let p := initialize_dock X dock_width dock_height in
  created_x p = moved_x p
  /\ moved_x p + dock_width = DisplayWidth X
  /\ (dock_height <= DisplayHeight X ->
      created_y p = moved_y p
      /\ 0 <= moved_y p
      /\ moved_y p + dock_height <= DisplayHeight X
      /\ 0 <= (DisplayHeight X - dock_height - moved_y p) - moved_y p <= 1)
  /\ (DisplayHeight X < dock_height ->
      created_y p = 2147483648 - (dock_height - DisplayHeight X + 1) / 2
      /\ moved_y p = - ((dock_height - DisplayHeight X) / 2)
      /\ moved_y p <= 0 /\ DisplayHeight X <= moved_y p + dock_height).
Proof.
  intros Hw HW Hh HH p. subst p. unfold initialize_dock.
  cbn [created_x created_y moved_x moved_y].
  split; [reflexivity|].
  split; [rewrite int_of_uint32_wrapped by lia; lia|].
  split.
  - intros Hfit.
    rewrite (uint32_t_small (DisplayHeight X - dock_height)) by lia.
    rewrite (int_of_uint32_small (DisplayHeight X - dock_height)) by lia.
    rewrite Z.quot_div_nonneg by lia.
    set (gap := DisplayHeight X - dock_height).
    assert (Hgap : 0 <= gap) by (subst gap; lia).
    pose proof (Z.div_mod gap 2 ltac:(lia)) as Hdm.
    pose proof (Z.mod_pos_bound gap 2 ltac:(lia)) as Hm.
    rewrite int_of_uint32_small by lia.
    repeat split; lia.
  - intros Hsmall.
    rewrite (uint32_t_negative (DisplayHeight X - dock_height)) by lia.
    rewrite half_unsigned_negative by lia.
    replace (- (DisplayHeight X - dock_height)) with (dock_height - DisplayHeight X) by lia.
    assert (Hq : 0 <= (dock_height - DisplayHeight X + 1) / 2 <= 1073741824).
    { split; [apply Z.div_pos; lia|]. apply Z.div_le_upper_bound; lia. }
    assert (Hq1 : 1 <= (dock_height - DisplayHeight X + 1) / 2)
      by (apply Z.div_le_lower_bound; lia).
    rewrite int_of_uint32_small by lia.
    rewrite <- (uint32_t_negative (DisplayHeight X - dock_height)) by lia.
    rewrite int_of_uint32_wrapped by lia.
    rewrite quot_negative by lia.
    replace (- (DisplayHeight X - dock_height)) with (dock_height - DisplayHeight X) by lia.
    assert (Hk : 0 <= (dock_height - DisplayHeight X) / 2) by (apply Z.div_pos; lia).
    assert (Hk2 : (dock_height - DisplayHeight X) / 2 <= dock_height - DisplayHeight X)
      by (apply Z.div_le_upper_bound; lia).
    repeat split; lia.
Qed.

End Screen.


Lemma initialize_dock_centred_witness :
  created_y (initialize_dock example_server 60 885)
  = moved_y (initialize_dock example_server 60 885)
  /\ 0 <= moved_y (initialize_dock example_server 60 885)
  /\ moved_y (initialize_dock example_server 60 885) + 885 <= DisplayHeight example_server
  /\ 0 <= (DisplayHeight example_server - 885
           - moved_y (initialize_dock example_server 60 885))
          - moved_y (initialize_dock example_server 60 885) <= 1.
Proof.
  exact (proj1 (proj2 (proj2 (initialize_dock_centred example_server 60 885
                                ltac:(change (0 <= 60 <= 1920); lia)
                                ltac:(change (1920 < 2147483648); lia)
                                ltac:(lia)
                                ltac:(change (0 <= 1000 < 2147483648); lia))))
           ltac:(change (885 <= 1000); lia)).
Defined.

(** ** What is drawn *)

(** X17. The picture of a box. Drawn unpressed, the colour fills exactly
    the square that is cleared; drawn pressed, it fills a square five
    pixels smaller, two pixels in from the left and from the top (and so
    three from the right and from the bottom). The rectangle behind the
    label starts at the left side of the coloured square and ends at its
    lower side; when the label is higher than the square, it is cut to the
    square, as long as the label is no higher than the square's lower side
    is below the top of the window. Otherwise the subtraction wraps around
    and the test that should cut the rectangle does not fire. *)
Theorem colorbox_picture_inside (rect_size : Z) (box : ColorBox) (m : TextMetrics) :
  5 <= rect_size -> 0 <= box_x box -> 0 <= box_y box ->
  box_x box + rect_size < 4294967296 -> box_y box + rect_size < 4294967296 ->
  0 <= metrics_width m -> 0 <= metrics_height m < 4294967296 - PADDING ->
  let p := colorbox_picture rect_size box m in
  let inset := if is_clicked box then 2 else 0 in
  clear_x p = box_x box /\ clear_y p = box_y box /\ clear_size p = rect_size
  /\ fill_x p = clear_x p + inset /\ fill_y p = clear_y p + inset
  /\ fill_size p = (if is_clicked box then rect_size - 5 else rect_size)
  /\ label_rect_x p = fill_x p
  /\ (metrics_height m + PADDING <= fill_y p + fill_size p ->
      fill_y p <= label_rect_y p
      /\ label_rect_y p + label_rect_height p = fill_y p + fill_size p
      /\ label_rect_height p = Z.min (metrics_height m + PADDING) (fill_size p))
  /\ (fill_y p + fill_size p < metrics_height m + PADDING ->
      label_rect_height p = metrics_height m + PADDING
      /\ label_rect_y p
         = 4294967296 - (metrics_height m + PADDING - (fill_y p + fill_size p))).
Proof.
  intros Hr Hx Hy Hxr Hyr Hmw Hmh p inset. subst p inset.
  unfold colorbox_picture, PADDING in *. cbv zeta.
  cbn [clear_x clear_y clear_size fill_x fill_y fill_size label_rect_x label_rect_y
         label_rect_height].
  rewrite (uint32_t_small (metrics_height m + 5)) by lia.
  set (size := if is_clicked box then uint32_t (rect_size - 5) else rect_size).
  set (fx := if is_clicked box then uint32_t (box_x box + 2) else box_x box).
  set (fy := if is_clicked box then uint32_t (box_y box + 2) else box_y box).
  assert (Hsize : size = if is_clicked box then rect_size - 5 else rect_size).
  { subst size. destruct (is_clicked box); [apply uint32_t_small; lia|reflexivity]. }
  assert (Hfx : fx = box_x box + (if is_clicked box then 2 else 0)).
  { subst fx. destruct (is_clicked box); [apply uint32_t_small; lia|lia]. }
  assert (Hfy : fy = box_y box + (if is_clicked box then 2 else 0)).
  { subst fy. destruct (is_clicked box); [apply uint32_t_small; lia|lia]. }
  assert (Hbottom : 0 <= fy /\ 0 <= size /\ fy + size < 4294967296).
  { rewrite Hfy, Hsize. destruct (is_clicked box); lia. }
  do 3 (split; [reflexivity|]). split; [exact Hfx|]. split; [exact Hfy|].
  split; [exact Hsize|]. split; [reflexivity|].
  clearbody size fx fy. split.
  - intros Hfit. rewrite (uint32_t_small (fy + size - (metrics_height m + 5))) by lia.
    destruct (fy + size - (metrics_height m + 5) <? fy) eqn:E.
    + apply Z.ltb_lt in E. lia.
    + apply Z.ltb_ge in E. lia.
  - intros Hwrap.
    rewrite (uint32_t_negative (fy + size - (metrics_height m + 5))) by lia.
    assert (E : (fy + size - (metrics_height m + 5) + 4294967296 <? fy) = false)
      by (apply Z.ltb_ge; lia).
    rewrite E. lia.
Qed.

Lemma colorbox_picture_inside_witness :
  let p := colorbox_picture 50
             {| box_x := 5; box_y := 60; box_color := 0x3B4252; box_label := "nord1";
                is_clicked := true |}
             {| metrics_width := 30; metrics_height := 13 |} in
  fill_x p = clear_x p + 2 /\ fill_y p = clear_y p + 2.
Proof.
  pose proof (colorbox_picture_inside 50
                {| box_x := 5; box_y := 60; box_color := 0x3B4252; box_label := "nord1";
                   is_clicked := true |}
                {| metrics_width := 30; metrics_height := 13 |}
                ltac:(lia) ltac:(cbn; lia) ltac:(cbn; lia) ltac:(cbn; lia) ltac:(cbn; lia)
                ltac:(cbn; lia) ltac:(cbn; unfold PADDING; lia)) as H.
  cbv zeta in H. destruct H as (_ & _ & _ & Hx & Hy & _).
  cbv zeta. split; [exact Hx|exact Hy].
Defined.

(** The requests of [draw_colorbox] over the boxes from index [k] on. *)
Lemma draw_from_requests (pre boxes : list ColorBox) (st : AppState) :
  color_boxes st = pre ++ boxes ->
  requests (foldl (fun s i => draw_colorbox (Some i) s) st (seq (length pre) (length boxes)))
  = rev (imap (fun i b => DrawColorBox (length pre + i) (is_clicked b)) boxes)
    ++ requests st.
Proof.
  revert pre st. induction boxes as [|b boxes IH]; intros pre st Hst; [reflexivity|].
  cbn [length seq foldl].
  assert (Hb : color_boxes st !! length pre = Some b).
  { rewrite Hst. now rewrite list_lookup_middle. }
  assert (Hd : draw_colorbox (Some (length pre)) st
               = emit (DrawColorBox (length pre) (is_clicked b)) st).
  { unfold draw_colorbox. now rewrite Hb. }
  rewrite Hd.
  specialize (IH (pre ++ [b]) (emit (DrawColorBox (length pre) (is_clicked b)) st)).
  rewrite length_app in IH. cbn [length] in IH.
  replace (length pre + 1)%nat with (S (length pre)) in IH by lia.
  rewrite IH by (cbn [emit color_boxes]; rewrite Hst, <- app_assoc; reflexivity).
  cbn [emit requests]. rewrite imap_cons. cbn [rev]. rewrite <- app_assoc. cbn [app].
  rewrite Nat.add_0_r. f_equal. f_equal.
  apply imap_ext. intros i x _. cbn. f_equal. lia.
Qed.

Section Redraw.

Variable X : XServer.

(** X18. An Expose event with no more to follow makes the dock draw each
    of its sixteen boxes once, from the first to the last, each as pressed
    as it is; one with more to follow draws nothing. Neither changes
    anything else. *)
Theorem expose_draws_all (st : AppState) (w : Window) (count : Z) :
  length (color_boxes st) = Z.to_nat PALETTE_LENGTH ->
  let d := handle_event X (Expose w count) st in
  control d = InMain
  /\ quiet st (state d)
  /\ requests (state d)
     = (if count =? 0
        then rev (imap (fun i b => DrawColorBox i (is_clicked b)) (color_boxes st))
        else [])
       ++ requests st.
Proof.
  intros Hlen d. subst d. cbn [handle_event control state].
  split; [reflexivity|]. split.
  { destruct (count =? 0); [apply draw_all_boxes_quiet|apply quiet_refl]. }
  destruct (count =? 0); [|reflexivity].
  unfold draw_all_boxes. rewrite <- Hlen.
  apply (draw_from_requests [] (color_boxes st) st). reflexivity.
Qed.

End Redraw.

Lemma expose_draws_all_witness :
  requests (state (handle_event example_server (Expose 7 0)
                     (state (run example_server example_dock
                               [ButtonPress 7 Button1 10 10]))))
  = (if 0 =? 0
     then rev (imap (fun i b => DrawColorBox i (is_clicked b))
                 (color_boxes (state (run example_server example_dock
                                        [ButtonPress 7 Button1 10 10]))))
     else [])
    ++ requests (state (run example_server example_dock [ButtonPress 7 Button1 10 10])).
Proof.
  exact (proj2 (proj2 (expose_draws_all example_server
                         (state (run example_server example_dock
                                   [ButtonPress 7 Button1 10 10]))
                         7 0 ltac:(vm_compute; reflexivity)))).
Defined.

(** ** A box left pressed *)

Lemma effect_orphan st st' j :
  Effect st st' ->
  is_clicked <$> color_boxes st !! j = Some true -> last_clicked_box st <> Some j ->
  is_clicked <$> color_boxes st' !! j = Some true.
Proof.
  intros [H|i b Hb H|i Hl H|i b format _ _ H] Hj Hne;
    destruct H as (-> & _); try exact Hj.
  - destruct (decide (i = j)) as [->|Hij].
    + rewrite list_lookup_alter_eq. destruct (color_boxes st !! j); [reflexivity|discriminate].
    + now rewrite list_lookup_alter_ne.
  - rewrite list_lookup_alter_ne; [exact Hj|]. congruence.
Qed.

(** X19. A pressed box that is not the last-clicked one (as the first of
    two boxes pressed in a row) stays pressed whatever event comes next: no
    release and no motion lifts it. Only after a new primary press on it,
    which makes it the last-clicked box again, can it be lifted. *)
Theorem orphan_box_stays_pressed (X : XServer) (window : Window) (evs : list XEvent)
    (ev : XEvent) (j : nat) :
  let d := run X (initial_dock X window) evs in
  is_clicked <$> color_boxes (state d) !! j = Some true ->
  last_clicked_box (state d) <> Some j ->
  is_clicked <$> color_boxes (state (step X d ev)) !! j = Some true.
Proof.
  intros d Hj Hne.
  destruct (reachable_well_formed X window evs) as (Hv & _).
  destruct (step_effect X d ev Hv) as (He & _).
  now apply (effect_orphan _ _ j He).
Qed.

Lemma orphan_box_stays_pressed_witness :
  is_clicked <$>
    color_boxes (state (step example_server (run example_server example_dock two_presses)
                          (ButtonRelease 7 Button1 10 10)))
    !! 0%nat
  = Some true.
Proof.
  apply (orphan_box_stays_pressed example_server 7 two_presses
           (ButtonRelease 7 Button1 10 10) 0).
  - vm_compute. reflexivity.
  - vm_compute. discriminate.
Defined.
